(** * Remi adaptive covariance MCMC: the ask/tell sampler

    A shallow embedding of [pints/_mcmc/_remi_acmcmc.py] (class
    [RemiACMCMC]) together with the parts of its base class
    [pints.GlobalAdaptiveCovarianceMCMC] that its methods call.

    - Floating-point scalars are kept abstract: the development is
      parametric in an interface [FloatOps] of the operations the code
      applies to them ([+], [-], [*], [np.exp], [np.log], [**],
      comparisons and [np.isfinite]).  No algebraic law is assumed unless
      a statement lists it.
    - [np.random] is a generator state threaded through the program; every
      multivariate-normal draw is counted.
    - numpy arrays that the sampler hands out live in a store of objects
      with an address (their identity) and a [writeable] flag.
    - A method is a state transformer that either returns or raises; the
      state after a raise is kept, as in Python.

    Further on: the methods of [RemiACMCMC] over an arbitrary base class,
    [ParabolicError] ([pints/toy/_parabola.py]) and the warm-up handling
    of the functional tests ([pints/functionaltests]). *)

From Stdlib Require Import QArith.
From stdpp Require Import base option list.

Set Default Proof Using "Type".

(** ** Scalars and the random source *)

Class FloatOps (F : Type) := {
  of_Q : Q -> F;                 (* numeric literals, int -> float *)
  fadd : F -> F -> F;
  fsub : F -> F -> F;
  fmul : F -> F -> F;
  fneg : F -> F;
  fpow : F -> F -> F;            (* [a ** b] *)
  np_exp : F -> F;
  np_log : F -> F;
  flt : F -> F -> bool;          (* [a < b], false on NaN *)
  fle : F -> F -> bool;          (* [a <= b], false on NaN *)
  np_isfinite : F -> bool
}.

Class RandomSource (F G : Type) := {
  (* [np.random.multivariate_normal(mean, cov)] *)
  multivariate_normal : G -> list F -> list (list F) -> list F * G;
  (* [np.random.uniform(low, high)] *)
  uniform : G -> F -> F -> F * G
}.

(** ** Vectors and matrices (numpy expressions on arrays) *)

Section Arrays.
Context {F : Type} `{FloatOps F}.

Definition vector := list F.
Definition matrix := list (list F).

Definition zero : F := of_Q 0.
Definition one : F := of_Q 1.
Definition of_nat (n : nat) : F := of_Q (inject_Z (Z.of_nat n)).

(* Element-wise operations; the operands always have equal shapes here
   (numpy raises on a mismatch, [zip_with] would truncate). *)
Definition vadd (u v : vector) : vector := zip_with fadd u v.
Definition vsub (u v : vector) : vector := zip_with fsub u v.
Definition vscale (c : F) (v : vector) : vector := map (fmul c) v.
Definition madd (a b : matrix) : matrix := zip_with vadd a b.
Definition mscale (c : F) (a : matrix) : matrix := map (vscale c) a.
Definition outer (u v : vector) : matrix := map (fun ui => vscale ui v) u.

(* [np.diag(np.ones(n))] *)
Definition identity (n : nat) : matrix :=
  map (fun i => map (fun j => if Nat.eqb i j then one else zero) (seq 0 n))
      (seq 0 n).
End Arrays.

(** ** Program state

    [heap], [rng] and [mvn_draws] are the interpreter's side: the arrays
    handed out, numpy's global generator, and the number of
    multivariate-normal draws made so far.  The other fields are the
    attributes of one sampler object.  [_proposed], [_current], [_sigma],
    [_loga], [_gamma], [_accepted], [_adaptive] and [_target_acceptance]
    occur in [_remi_acmcmc.py] and [_x0] in its test; the remaining ones
    are the entries of the specification's data model (section 3) that
    the base class needs, under the attribute names it would give them. *)

Definition addr := nat.

Record ndarray {F : Type} := mk_ndarray { data : list F; writeable : bool }.
Arguments ndarray : clear implicits.

#[projections(primitive)]
Record state {F G : Type} := mk_state {
  heap : list (ndarray F);
  rng : G;
  mvn_draws : nat;
  _x0 : addr;
  _sigma0 : list (list F);
  _running : bool;
  _current : option addr;
  _current_log_pdf : option F;
  _proposed : option addr;
  _mu : list F;
  _sigma : list (list F);
  _loga : F;
  _adaptation_count : nat;
  _gamma : F;
  _accepted : F;
  _adaptive : bool;
  _target_acceptance : F;
  _eta : F;
  _iterations : nat;
  _accepted_count : nat
}.
Arguments state : clear implicits.

(** ** Methods as state transformers that return or raise *)

Inductive exn := RuntimeError | ValueError | IndexError.

Inductive outcome (A : Type) :=
| Return (a : A)
| Raise (e : exn).
Arguments Return {A} a.
Arguments Raise {A} e.

Declare Scope py_scope.
Delimit Scope py_scope with py.

Definition method (F G A : Type) : Type :=
  state F G -> state F G * outcome A.

Section Monad.
Context {F G : Type}.

Definition ret {A} (a : A) : method F G A := fun s => (s, Return a).
Definition raise {A} (e : exn) : method F G A := fun s => (s, Raise e).
Definition bind {A B} (m : method F G A) (k : A -> method F G B)
  : method F G B :=
  fun s => match m s with
           | (s', Return a) => k a s'
           | (s', Raise e) => (s', Raise e)
           end.
Definition get : method F G (state F G) := fun s => (s, Return s).
Definition modify (f : state F G -> state F G) : method F G unit :=
  fun s => (f s, Return tt).
End Monad.

Notation "x <- m ;; k" := (bind m (fun x => k))
  (at level 20, m at level 99, k at level 200) : py_scope.
Notation "m ;; k" := (bind m (fun _ => k))
  (at level 100, k at level 200, right associativity) : py_scope.
Local Open Scope py_scope.

Section Numpy.
Context {F G : Type} `{FloatOps F} `{RandomSource F G}.

Abbreviation St := (state F G).
Abbreviation M := (method F G).

(** Attribute assignment [self.<field> = v], one function per field. *)

Definition with_heap (v : list (ndarray F)) (s : St) : St :=
  {| heap := v; rng := rng s; mvn_draws := mvn_draws s; _x0 := _x0 s;
     _sigma0 := _sigma0 s; _running := _running s; _current := _current s;
     _current_log_pdf := _current_log_pdf s; _proposed := _proposed s; _mu :=
     _mu s; _sigma := _sigma s; _loga := _loga s; _adaptation_count :=
     _adaptation_count s; _gamma := _gamma s; _accepted := _accepted s;
     _adaptive := _adaptive s; _target_acceptance := _target_acceptance s;
     _eta := _eta s; _iterations := _iterations s; _accepted_count :=
     _accepted_count s |}.
Definition with_rng (v : G) (s : St) : St :=
  {| heap := heap s; rng := v; mvn_draws := mvn_draws s; _x0 := _x0 s;
     _sigma0 := _sigma0 s; _running := _running s; _current := _current s;
     _current_log_pdf := _current_log_pdf s; _proposed := _proposed s; _mu :=
     _mu s; _sigma := _sigma s; _loga := _loga s; _adaptation_count :=
     _adaptation_count s; _gamma := _gamma s; _accepted := _accepted s;
     _adaptive := _adaptive s; _target_acceptance := _target_acceptance s;
     _eta := _eta s; _iterations := _iterations s; _accepted_count :=
     _accepted_count s |}.
Definition with_mvn_draws (v : nat) (s : St) : St :=
  {| heap := heap s; rng := rng s; mvn_draws := v; _x0 := _x0 s; _sigma0
     := _sigma0 s; _running := _running s; _current := _current s;
     _current_log_pdf := _current_log_pdf s; _proposed := _proposed s; _mu :=
     _mu s; _sigma := _sigma s; _loga := _loga s; _adaptation_count :=
     _adaptation_count s; _gamma := _gamma s; _accepted := _accepted s;
     _adaptive := _adaptive s; _target_acceptance := _target_acceptance s;
     _eta := _eta s; _iterations := _iterations s; _accepted_count :=
     _accepted_count s |}.
Definition with_running (v : bool) (s : St) : St :=
  {| heap := heap s; rng := rng s; mvn_draws := mvn_draws s; _x0 := _x0 s;
     _sigma0 := _sigma0 s; _running := v; _current := _current s;
     _current_log_pdf := _current_log_pdf s; _proposed := _proposed s; _mu :=
     _mu s; _sigma := _sigma s; _loga := _loga s; _adaptation_count :=
     _adaptation_count s; _gamma := _gamma s; _accepted := _accepted s;
     _adaptive := _adaptive s; _target_acceptance := _target_acceptance s;
     _eta := _eta s; _iterations := _iterations s; _accepted_count :=
     _accepted_count s |}.
Definition with_current (v : option addr) (s : St) : St :=
  {| heap := heap s; rng := rng s; mvn_draws := mvn_draws s; _x0 := _x0 s;
     _sigma0 := _sigma0 s; _running := _running s; _current := v;
     _current_log_pdf := _current_log_pdf s; _proposed := _proposed s; _mu :=
     _mu s; _sigma := _sigma s; _loga := _loga s; _adaptation_count :=
     _adaptation_count s; _gamma := _gamma s; _accepted := _accepted s;
     _adaptive := _adaptive s; _target_acceptance := _target_acceptance s;
     _eta := _eta s; _iterations := _iterations s; _accepted_count :=
     _accepted_count s |}.
Definition with_current_log_pdf (v : option F) (s : St) : St :=
  {| heap := heap s; rng := rng s; mvn_draws := mvn_draws s; _x0 := _x0 s;
     _sigma0 := _sigma0 s; _running := _running s; _current := _current s;
     _current_log_pdf := v; _proposed := _proposed s; _mu := _mu s; _sigma :=
     _sigma s; _loga := _loga s; _adaptation_count := _adaptation_count s;
     _gamma := _gamma s; _accepted := _accepted s; _adaptive := _adaptive s;
     _target_acceptance := _target_acceptance s; _eta := _eta s; _iterations
     := _iterations s; _accepted_count := _accepted_count s |}.
Definition with_proposed (v : option addr) (s : St) : St :=
  {| heap := heap s; rng := rng s; mvn_draws := mvn_draws s; _x0 := _x0 s;
     _sigma0 := _sigma0 s; _running := _running s; _current := _current s;
     _current_log_pdf := _current_log_pdf s; _proposed := v; _mu := _mu s;
     _sigma := _sigma s; _loga := _loga s; _adaptation_count :=
     _adaptation_count s; _gamma := _gamma s; _accepted := _accepted s;
     _adaptive := _adaptive s; _target_acceptance := _target_acceptance s;
     _eta := _eta s; _iterations := _iterations s; _accepted_count :=
     _accepted_count s |}.
Definition with_mu (v : vector) (s : St) : St :=
  {| heap := heap s; rng := rng s; mvn_draws := mvn_draws s; _x0 := _x0 s;
     _sigma0 := _sigma0 s; _running := _running s; _current := _current s;
     _current_log_pdf := _current_log_pdf s; _proposed := _proposed s; _mu :=
     v; _sigma := _sigma s; _loga := _loga s; _adaptation_count :=
     _adaptation_count s; _gamma := _gamma s; _accepted := _accepted s;
     _adaptive := _adaptive s; _target_acceptance := _target_acceptance s;
     _eta := _eta s; _iterations := _iterations s; _accepted_count :=
     _accepted_count s |}.
Definition with_sigma (v : matrix) (s : St) : St :=
  {| heap := heap s; rng := rng s; mvn_draws := mvn_draws s; _x0 := _x0 s;
     _sigma0 := _sigma0 s; _running := _running s; _current := _current s;
     _current_log_pdf := _current_log_pdf s; _proposed := _proposed s; _mu :=
     _mu s; _sigma := v; _loga := _loga s; _adaptation_count :=
     _adaptation_count s; _gamma := _gamma s; _accepted := _accepted s;
     _adaptive := _adaptive s; _target_acceptance := _target_acceptance s;
     _eta := _eta s; _iterations := _iterations s; _accepted_count :=
     _accepted_count s |}.
Definition with_loga (v : F) (s : St) : St :=
  {| heap := heap s; rng := rng s; mvn_draws := mvn_draws s; _x0 := _x0 s;
     _sigma0 := _sigma0 s; _running := _running s; _current := _current s;
     _current_log_pdf := _current_log_pdf s; _proposed := _proposed s; _mu :=
     _mu s; _sigma := _sigma s; _loga := v; _adaptation_count :=
     _adaptation_count s; _gamma := _gamma s; _accepted := _accepted s;
     _adaptive := _adaptive s; _target_acceptance := _target_acceptance s;
     _eta := _eta s; _iterations := _iterations s; _accepted_count :=
     _accepted_count s |}.
Definition with_adaptation_count (v : nat) (s : St) : St :=
  {| heap := heap s; rng := rng s; mvn_draws := mvn_draws s; _x0 := _x0 s;
     _sigma0 := _sigma0 s; _running := _running s; _current := _current s;
     _current_log_pdf := _current_log_pdf s; _proposed := _proposed s; _mu :=
     _mu s; _sigma := _sigma s; _loga := _loga s; _adaptation_count := v;
     _gamma := _gamma s; _accepted := _accepted s; _adaptive := _adaptive s;
     _target_acceptance := _target_acceptance s; _eta := _eta s; _iterations
     := _iterations s; _accepted_count := _accepted_count s |}.
Definition with_gamma (v : F) (s : St) : St :=
  {| heap := heap s; rng := rng s; mvn_draws := mvn_draws s; _x0 := _x0 s;
     _sigma0 := _sigma0 s; _running := _running s; _current := _current s;
     _current_log_pdf := _current_log_pdf s; _proposed := _proposed s; _mu :=
     _mu s; _sigma := _sigma s; _loga := _loga s; _adaptation_count :=
     _adaptation_count s; _gamma := v; _accepted := _accepted s; _adaptive :=
     _adaptive s; _target_acceptance := _target_acceptance s; _eta := _eta s;
     _iterations := _iterations s; _accepted_count := _accepted_count s |}.
Definition with_accepted (v : F) (s : St) : St :=
  {| heap := heap s; rng := rng s; mvn_draws := mvn_draws s; _x0 := _x0 s;
     _sigma0 := _sigma0 s; _running := _running s; _current := _current s;
     _current_log_pdf := _current_log_pdf s; _proposed := _proposed s; _mu :=
     _mu s; _sigma := _sigma s; _loga := _loga s; _adaptation_count :=
     _adaptation_count s; _gamma := _gamma s; _accepted := v; _adaptive :=
     _adaptive s; _target_acceptance := _target_acceptance s; _eta := _eta s;
     _iterations := _iterations s; _accepted_count := _accepted_count s |}.
Definition with_adaptive (v : bool) (s : St) : St :=
  {| heap := heap s; rng := rng s; mvn_draws := mvn_draws s; _x0 := _x0 s;
     _sigma0 := _sigma0 s; _running := _running s; _current := _current s;
     _current_log_pdf := _current_log_pdf s; _proposed := _proposed s; _mu :=
     _mu s; _sigma := _sigma s; _loga := _loga s; _adaptation_count :=
     _adaptation_count s; _gamma := _gamma s; _accepted := _accepted s;
     _adaptive := v; _target_acceptance := _target_acceptance s; _eta := _eta
     s; _iterations := _iterations s; _accepted_count := _accepted_count s |}.
Definition with_target_acceptance (v : F) (s : St) : St :=
  {| heap := heap s; rng := rng s; mvn_draws := mvn_draws s; _x0 := _x0 s;
     _sigma0 := _sigma0 s; _running := _running s; _current := _current s;
     _current_log_pdf := _current_log_pdf s; _proposed := _proposed s; _mu :=
     _mu s; _sigma := _sigma s; _loga := _loga s; _adaptation_count :=
     _adaptation_count s; _gamma := _gamma s; _accepted := _accepted s;
     _adaptive := _adaptive s; _target_acceptance := v; _eta := _eta s;
     _iterations := _iterations s; _accepted_count := _accepted_count s |}.
Definition with_eta (v : F) (s : St) : St :=
  {| heap := heap s; rng := rng s; mvn_draws := mvn_draws s; _x0 := _x0 s;
     _sigma0 := _sigma0 s; _running := _running s; _current := _current s;
     _current_log_pdf := _current_log_pdf s; _proposed := _proposed s; _mu :=
     _mu s; _sigma := _sigma s; _loga := _loga s; _adaptation_count :=
     _adaptation_count s; _gamma := _gamma s; _accepted := _accepted s;
     _adaptive := _adaptive s; _target_acceptance := _target_acceptance s;
     _eta := v; _iterations := _iterations s; _accepted_count :=
     _accepted_count s |}.
Definition with_iterations (v : nat) (s : St) : St :=
  {| heap := heap s; rng := rng s; mvn_draws := mvn_draws s; _x0 := _x0 s;
     _sigma0 := _sigma0 s; _running := _running s; _current := _current s;
     _current_log_pdf := _current_log_pdf s; _proposed := _proposed s; _mu :=
     _mu s; _sigma := _sigma s; _loga := _loga s; _adaptation_count :=
     _adaptation_count s; _gamma := _gamma s; _accepted := _accepted s;
     _adaptive := _adaptive s; _target_acceptance := _target_acceptance s;
     _eta := _eta s; _iterations := v; _accepted_count := _accepted_count s
     |}.
Definition with_accepted_count (v : nat) (s : St) : St :=
  {| heap := heap s; rng := rng s; mvn_draws := mvn_draws s; _x0 := _x0 s;
     _sigma0 := _sigma0 s; _running := _running s; _current := _current s;
     _current_log_pdf := _current_log_pdf s; _proposed := _proposed s; _mu :=
     _mu s; _sigma := _sigma s; _loga := _loga s; _adaptation_count :=
     _adaptation_count s; _gamma := _gamma s; _accepted := _accepted s;
     _adaptive := _adaptive s; _target_acceptance := _target_acceptance s;
     _eta := _eta s; _iterations := _iterations s; _accepted_count := v |}.

(** *** numpy *)

(* The contents of the array at [a]. *)
Definition deref (h : list (ndarray F)) (a : addr) : option (list F) :=
  data <$> h !! a.

(* A new array object holding [x]; fresh arrays are writeable. *)
Definition np_array (x : list F) : M addr :=
  s <- get;;
  modify (with_heap (heap s ++ [mk_ndarray F x true]));;
  ret (length (heap s)).

(* [a.setflags(write=b)] *)
Definition setflags (a : addr) (b : bool) : M unit :=
  modify (fun s =>
    with_heap (alter (fun o => mk_ndarray F (data o) b) a (heap s)) s).

(* [a[i] = v] done by anyone holding [a]: numpy refuses it on a read-only
   array with ValueError("assignment destination is read-only"), and
   outside the array with IndexError. *)
Definition setitem (a : addr) (i : nat) (v : F) : M unit :=
  s <- get;;
  match heap s !! a with
  | Some o =>
      if negb (writeable o) then raise ValueError
      else if length (data o) <=? i then raise IndexError
      else modify (with_heap
                     (<[a := mk_ndarray F (<[i := v]> (data o)) true]> (heap s)))
  | None => ret tt (* no such object: Python has no dangling names *)
  end.

(* [np.random.multivariate_normal(mean, cov)]: advances the generator,
   counts the draw and returns the sample as a new array.  A [mean] that
   is [None] is refused with ValueError("mean must be 1 dimensional").
   numpy refuses other arguments as well (a covariance of the wrong shape,
   or one with entries that are not finite); those refusals are not
   represented here: for every other argument the call returns. *)
Definition np_random_multivariate_normal
    (mean : option addr) (cov : matrix) : M addr :=
  s <- get;;
  match mean ≫= deref (heap s) with
  | None => raise ValueError
  | Some m =>
      let '(x, g) := multivariate_normal (rng s) m cov in
      modify (with_rng g);;
      modify (fun s => with_mvn_draws (S (mvn_draws s)) s);;
      np_array x
  end.

(* [np.random.uniform(low, high)] *)
Definition np_random_uniform (low high : F) : M F :=
  s <- get;;
  let '(u, g) := uniform (rng s) low high in
  modify (with_rng g);;
  ret u.

End Numpy.

(** ** The base class [pints.GlobalAdaptiveCovarianceMCMC]

    [RemiACMCMC] calls [super().__init__], [super().ask()],
    [super()._initialise()] and [super().tell(fx)] and reads the attributes
    [_proposed], [_current], [_sigma], [_adaptive], [_gamma], [_accepted]
    and [_target_acceptance] that the base class maintains.  The base class
    is not among the source files; each of its methods below is written
    from the specification (sections 3, 4.1 to 4.4 and 8). *)

Module GlobalAdaptiveCovarianceMCMC.
Section Methods.
Context {F G : Type} `{FloatOps F} `{RandomSource F G}.

Abbreviation St := (state F G).
Abbreviation M := (method F G).

(** Modelled from the spec: the constructor of the missing base class.
    "Construction inputs: initial point x0 (required), optional covariance
    seed sigma0 (defaults to identity)"; "eta (default 0.6)",
    "target_acceptance_rate (default 0.234)"; "Initial state: AwaitingAsk
    with no current point set until first tell"; the stored point is
    immutable ("no external mutation permitted").  [g] is the generator
    state at construction.  Attributes that are first assigned later hold
    [undef] (or an empty array) until then; the sampler starts in the
    initial phase. *)
Definition __init__ (g : G) (undef : F) (x0 : vector) (sigma0 : option matrix)
  : St :=
  {| heap := [mk_ndarray F x0 false]; rng := g; mvn_draws := 0;
     _x0 := 0; _sigma0 := default (identity (length x0)) sigma0;
     _running := false;
     _current := None; _current_log_pdf := None; _proposed := None;
     _mu := []; _sigma := [];
     _loga := undef; _adaptation_count := 0; _gamma := undef;
     _accepted := undef;
     _adaptive := false;
     _target_acceptance := of_Q (234 # 1000); _eta := of_Q (6 # 10);
     _iterations := 0; _accepted_count := 0 |}.

(** Modelled from the spec: [_initialise] of the missing base class.
    "all state initializes at construction/_initialise() (sigma =
    identity-scaled seed, mu = x0, log_a = 0, adaptation_count = 0)" and
    "first ask() returns exactly x0": the initial point itself becomes the
    pending proposal.  ([log_a] is set by the subclass override.) *)
Definition _initialise : M unit :=
  modify (fun s => with_proposed (Some (_x0 s)) s);;
  modify (fun s => with_mu (default [] (deref (heap s) (_x0 s))) s);;
  modify (fun s => with_sigma (_sigma0 s) s);;
  modify (with_adaptation_count 0);;
  modify (with_running true).

(** Modelled from the spec: [ask] of the missing base class.  It only
    initialises the sampler on the first call; [initialise] is the
    [self._initialise] of the object (the subclass override). *)
Definition ask (initialise : M unit) : M unit :=
  s <- get;;
  if _running s then ret tt else initialise.

(** Modelled from the spec: the accept/reject decision of [tell] (4.1).
    "On the very first call (no prior current_log_pdf), accepts the initial
    point unconditionally if log_pdf_value is finite; fails with a value
    error if [it] is non-finite.  On subsequent calls: accept if
    log(U) < log_pdf_value - current_log_pdf for U ~ Uniform(0,1) ...
    (explicit guard: non-finite new log-density always rejects)". *)
Definition accept_reject (fx : F) : M bool :=
  s <- get;;
  match _current_log_pdf s with
  | None => if np_isfinite fx then ret true else raise ValueError
  | Some cur =>
      if np_isfinite fx then
        u <- np_random_uniform zero one;;
        ret (flt (np_log u) (fsub fx cur))
      else ret false
  end.

(** Modelled from the spec: the point the adaptation step of the missing
    base class works on, "x = current after the decision" (4.2): the
    contents of the array [_current] names. *)
Definition current_point (s : St) : vector :=
  default [] (_current s ≫= deref (heap s)).

(** Modelled from the spec: the adaptation step of the missing base class,
    4.3 (first two lines) followed by 4.2, on the just-finalised current
    point:
<<
    adaptation_count += 1
    gamma = adaptation_count ^ (-eta)
    sigma <- (1 - gamma) * sigma + gamma * outer(x - mu, x - mu)
    mu    <- (1 - gamma) * mu + gamma * x
>>
    One assignment after the other, each reading the attributes as they
    are at that point. *)
Definition adapt : M unit :=
  modify (fun s => with_adaptation_count (S (_adaptation_count s)) s);;
  modify (fun s =>
    with_gamma (fpow (of_nat (_adaptation_count s)) (fneg (_eta s))) s);;
  modify (fun s =>
    let x := current_point s in
    with_sigma (madd (mscale (fsub one (_gamma s)) (_sigma s))
                     (mscale (_gamma s)
                             (outer (vsub x (_mu s)) (vsub x (_mu s))))) s);;
  modify (fun s =>
    let x := current_point s in
    with_mu (vadd (vscale (fsub one (_gamma s)) (_mu s))
                  (vscale (_gamma s) x)) s).

(** Modelled from the spec: [tell] of the missing base class (4.1).
    "fails with an invalid-state error if no proposal is pending ... On
    acceptance, current <- proposed, current_log_pdf <- log_pdf_value,
    accepted_count += 1; on rejection, current is unchanged,
    current_log_pdf unchanged.  Always clears the pending proposal.  If
    not in initial_phase, runs the adaptation step (4.2 + 4.3) using the
    just-finalized current.  Returns current".  [_accepted] is the
    indicator the subclass reads ("1.0 if the just-processed proposal was
    accepted, else 0.0"); [_iterations] counts completed calls. *)
Definition tell (fx : F) : M (option addr) :=
  s <- get;;
  match _proposed s with
  | None => raise RuntimeError
  | Some p =>
      acc <- accept_reject fx;;
      (if acc : bool then
         modify (with_current (Some p));;
         modify (with_current_log_pdf (Some fx));;
         modify (fun s => with_accepted_count (S (_accepted_count s)) s);;
         modify (with_accepted one)
       else
         modify (with_accepted zero));;
      modify (with_proposed None);;
      modify (fun s => with_iterations (S (_iterations s)) s);;
      s <- get;;
      (if _adaptive s then adapt else ret tt);;
      s <- get;;
      ret (_current s)
  end.

(** Modelled from the spec: "set_initial_phase(bool): toggles adaptation
    suppression; does not reset counters" (4.4); [_adaptive] is the
    negation of the initial-phase flag. *)
Definition set_initial_phase (initial_phase : bool) : M unit :=
  modify (with_adaptive (negb initial_phase)).

(** Modelled from the spec: "set_target_acceptance_rate(r): fails with a
    value error unless 0 < r <= 1" (4.4). *)
Definition set_target_acceptance_rate (r : F) : M unit :=
  if flt zero r && fle r one
  then modify (with_target_acceptance r)
  else raise ValueError.

(** Modelled from the spec: "set_hyper_parameters([eta]): single-element
    vector; fails with a value error if eta <= 0" (4.4). *)
Definition set_hyper_parameters (x : vector) : M unit :=
  match x with
  | [eta] => if fle eta zero then raise ValueError else modify (with_eta eta)
  | _ => raise ValueError
  end.

End Methods.
End GlobalAdaptiveCovarianceMCMC.

(** ** [RemiACMCMC] (pints/_mcmc/_remi_acmcmc.py) *)

Module RemiACMCMC.
Section Methods.
Context {F G : Type} `{FloatOps F} `{RandomSource F G}.

Abbreviation St := (state F G).
Abbreviation M := (method F G).

(* def __init__(self, x0, sigma0=None):
       super(RemiACMCMC, self).__init__(x0, sigma0) *)
Definition __init__ (g : G) (undef : F) (x0 : vector) (sigma0 : option matrix)
  : St :=
  GlobalAdaptiveCovarianceMCMC.__init__ g undef x0 sigma0.

(* def _initialise(self):
       super(RemiACMCMC, self)._initialise()
       self._loga = 0 *)
Definition _initialise : M unit :=
  GlobalAdaptiveCovarianceMCMC._initialise;;
  modify (with_loga zero).

(* def ask(self):
       super(RemiACMCMC, self).ask()
       if self._proposed is None:
           self._proposed = np.random.multivariate_normal(
               self._current, np.exp(self._loga) * self._sigma)
           self._proposed.setflags(write=False)
       return self._proposed *)
Definition ask : M (option addr) :=
  GlobalAdaptiveCovarianceMCMC.ask _initialise;;
  s <- get;;
  match _proposed s with
  | None =>
      p <- np_random_multivariate_normal
             (_current s) (mscale (np_exp (_loga s)) (_sigma s));;
      modify (with_proposed (Some p));;
      setflags p false
  | Some _ => ret tt
  end;;
  s <- get;;
  ret (_proposed s).

(* def tell(self, fx):
       super(RemiACMCMC, self).tell(fx)
       if self._adaptive:
           self._loga += (self._gamma *
                          (self._accepted - self._target_acceptance))
       return self._current *)
Definition tell (fx : F) : M (option addr) :=
  GlobalAdaptiveCovarianceMCMC.tell fx;;
  s <- get;;
  (if _adaptive s then
     modify (with_loga (fadd (_loga s)
                             (fmul (_gamma s)
                                   (fsub (_accepted s)
                                         (_target_acceptance s)))))
   else ret tt);;
  s <- get;;
  ret (_current s).

End Methods.
End RemiACMCMC.

(** ** An executable instance

    Exact rational arithmetic extended with one non-finite value ([None]):
    a result that is not a rational number is non-finite.  The random
    source replays a recorded tape of draws. *)

Module Exact.

Abbreviation num := (option Q).

Definition lift2 (f : Q -> Q -> Q) (a b : num) : num :=
  match a, b with
  | Some x, Some y => Some (f x y)
  | _, _ => None
  end.

Definition pow (a b : num) : num :=
  match a, b with
  | Some x, Some y =>
      if Qeq_bool x 1 then Some 1%Q
      else if (Qden y =? 1)%positive
           then (if Qeq_bool x 0 && (Qnum y <? 0)%Z then None
                 else Some (Qpower x (Qnum y)))
           else None
  | _, _ => None
  end.

Definition exp (a : num) : num :=
  match a with
  | Some x => if Qeq_bool x 0 then Some 1%Q else None
  | None => None
  end.

Definition log (a : num) : num :=
  match a with
  | Some x => if Qeq_bool x 1 then Some 0%Q else None
  | None => None
  end.

Definition cmp (f : Q -> Q -> bool) (a b : num) : bool :=
  match a, b with
  | Some x, Some y => f x y
  | _, _ => false
  end.

Definition Qltb (x y : Q) : bool := (Qnum x * QDen y <? Qnum y * QDen x)%Z.

#[export] Instance ops : FloatOps num := {|
  of_Q := Some;
  fadd := lift2 Qplus;
  fsub := lift2 Qminus;
  fmul := lift2 Qmult;
  fneg := option_map Qopp;
  fpow := pow;
  np_exp := exp;
  np_log := log;
  flt := cmp Qltb;
  fle := cmp Qle_bool;
  np_isfinite := fun a => match a with Some _ => true | None => false end
|}.

Abbreviation tape := (list (list num)).

#[export] Instance replay : RandomSource num tape := {|
  multivariate_normal := fun g mean cov =>
    match g with
    | x :: g' => (x, g')
    | [] => (mean, [])
    end;
  uniform := fun g low high =>
    match g with
    | (u :: _) :: g' => (u, g')
    | _ => (low, tl g)
    end
|}.

End Exact.

(** ** Executions

    A sampler is created by the constructor and then driven by calls of
    its methods; the caller may also try to write into any array it was
    handed. *)

Section Executions.
Context {F G : Type} `{FloatOps F} `{RandomSource F G}.

Abbreviation St := (state F G).
Abbreviation M := (method F G).

Inductive step : St -> St -> Prop :=
| step_ask s : step s (fst (RemiACMCMC.ask s))
| step_tell s fx : step s (fst (RemiACMCMC.tell fx s))
| step_set_initial_phase s b :
    step s (fst (GlobalAdaptiveCovarianceMCMC.set_initial_phase b s))
| step_set_target_acceptance_rate s r :
    step s (fst (GlobalAdaptiveCovarianceMCMC.set_target_acceptance_rate r s))
| step_set_hyper_parameters s x :
    step s (fst (GlobalAdaptiveCovarianceMCMC.set_hyper_parameters x s))
| step_setitem s a i v : step s (fst (setitem a i v s)).

Inductive reachable : St -> Prop :=
| reachable_init g undef x0 sigma0 :
    reachable (RemiACMCMC.__init__ g undef x0 sigma0)
| reachable_step s s' : reachable s -> step s s' -> reachable s'.

Definition read_only (h : list (ndarray F)) : Prop :=
  Forall (fun o => writeable o = false) h.

Record invariant (s : St) : Prop := {
  inv_read_only : read_only (heap s);
  inv_x0 : _x0 s < length (heap s);
  inv_proposed : forall p, _proposed s = Some p ->
                           p < length (heap s) /\ _running s = true;
  inv_current : forall c, _current s = Some c -> c < length (heap s);
  inv_log_pdf : is_Some (_current_log_pdf s) -> is_Some (_current s);
  inv_awaiting_ask : _running s = true -> _proposed s = None ->
                     is_Some (_current s)
}.

(* [n] calls of [ask] in a row, collecting what they return *)
Fixpoint asks (n : nat) : M (list (option addr)) :=
  match n with
  | O => ret []
  | S n' => a <- RemiACMCMC.ask;; l <- asks n';; ret (a :: l)
  end.

(* [accepted_count] went up by one between [s] and [s'] *)
Definition was_accepted (s s' : St) : bool :=
  Nat.eqb (_accepted_count s') (S (_accepted_count s)).

(* "accepted_indicator is 1.0 if the just-processed proposal was accepted,
   else 0.0" *)
Definition accepted_indicator (s s' : St) : F :=
  if was_accepted s s' then one else zero.

(* The initial phase is on exactly when adaptation is off. *)
Definition in_initial_phase (s : St) : bool := negb (_adaptive s).

(* With a proposal pending, [ask] leaves the generator alone. *)
Definition no_draw_when_pending : Prop :=
  forall (s : St) (p : addr),
    reachable s -> _proposed s = Some p ->
    rng (fst (RemiACMCMC.ask s)) = rng s
    /\ mvn_draws (fst (RemiACMCMC.ask s)) = mvn_draws s.

(* One multivariate-normal draw in every completed round, a round being an
   [ask] with no proposal pending followed by the [tell] that answers
   it. *)
Definition one_draw_per_round : Prop :=
  forall (s s1 s2 : St) (a r : option addr) (fx : F),
    reachable s -> _proposed s = None ->
    RemiACMCMC.ask s = (s1, Return a) ->
    RemiACMCMC.tell fx s1 = (s2, Return r) ->
    mvn_draws s2 = S (mvn_draws s).

(* The array at [p] in [s'] holds a sample that
   [np.random.multivariate_normal(mean, cov)] produced from the generator
   state of [s], and that one draw is accounted for. *)
Definition drawn_from (s s' : St) (p : addr) (mean : vector) (cov : matrix)
  : Prop :=
  deref (heap s') p = Some (multivariate_normal (rng s) mean cov).1
  /\ rng s' = (multivariate_normal (rng s) mean cov).2
  /\ mvn_draws s' = S (mvn_draws s).

(* The chain has started: a current log-density exists. *)
Definition started (s : St) : Prop := is_Some (_current_log_pdf s).

(* Every [ask] that is called with no proposal pending and returns hands
   out a draw of [np.random.multivariate_normal] around the current point
   with covariance [exp(log_a) * sigma]. *)
Definition ask_without_pending_draws : Prop :=
  forall (s s' : St) (r : option addr),
    reachable s -> _proposed s = None ->
    RemiACMCMC.ask s = (s', Return r) ->
    exists (c p : addr) (m : vector),
      _current s = Some c /\ deref (heap s) c = Some m /\ r = Some p
      /\ drawn_from s s' p m (mscale (np_exp (_loga s)) (_sigma s)).

(* "so the first proposal covariance equals the seed sigma": after the
   first round, whatever it was, the covariance [exp(log_a) * sigma] of
   the first draw is the seed. *)
Definition first_draw_has_seed_covariance : Prop :=
  forall (s s2 : St) (fx : F) (r : option addr),
    reachable s -> _running s = false ->
    RemiACMCMC.tell fx (fst (RemiACMCMC.ask s)) = (s2, Return r) ->
    mscale (np_exp (_loga s2)) (_sigma s2) = _sigma0 s.

End Executions.

(** ** Sample runs on the executable instance *)

Module Examples.
Import Exact.

Definition draws : tape :=
  [[Some 1%Q; Some 2%Q]; [Some (1 # 2)%Q]; [Some 5%Q; Some 7%Q]].

(* a new sampler at x0 = (3, 4) with the default covariance seed *)
Definition fresh : state num tape :=
  RemiACMCMC.__init__ draws None [Some 3%Q; Some 4%Q] None.

(* ... after the first [ask] *)
Definition asked : state num tape := (RemiACMCMC.ask fresh).1.

(* ... after the first round, run in the initial phase *)
Definition told : state num tape := (RemiACMCMC.tell (Some 2%Q) asked).1.

(* ... with the second proposal pending *)
Definition asked_again : state num tape := (RemiACMCMC.ask told).1.

(* the same start with adaptation switched on before the first round *)
Definition adaptive_asked : state num tape :=
  (RemiACMCMC.ask
     (GlobalAdaptiveCovarianceMCMC.set_initial_phase false fresh).1).1.

(* ... and after that first round *)
Definition adaptive_told : state num tape :=
  (RemiACMCMC.tell (Some 2%Q) adaptive_asked).1.

End Examples.

(** ** [RemiACMCMC], whatever the base class does

    The three methods of [_remi_acmcmc.py] once more, word for word, with
    the [super()] calls left open: what the code of the subclass does by
    itself. *)

Module Subclass.
Section Over.
Context {F G : Type} `{FloatOps F} `{RandomSource F G} {A B C : Type}.

Variable super_initialise : method F G A.
Variable super_ask : method F G B.
Variable super_tell : F -> method F G C.

(* def _initialise(self):
       super(RemiACMCMC, self)._initialise()
       self._loga = 0 *)
Definition _initialise : method F G unit :=
  super_initialise;;
  modify (with_loga zero).

(* def ask(self):
       super(RemiACMCMC, self).ask()
       if self._proposed is None:
           self._proposed = np.random.multivariate_normal(
               self._current, np.exp(self._loga) * self._sigma)
           self._proposed.setflags(write=False)
       return self._proposed *)
Definition ask : method F G (option addr) :=
  super_ask;;
  s <- get;;
  match _proposed s with
  | None =>
      p <- np_random_multivariate_normal
             (_current s) (mscale (np_exp (_loga s)) (_sigma s));;
      modify (with_proposed (Some p));;
      setflags p false
  | Some _ => ret tt
  end;;
  s <- get;;
  ret (_proposed s).

(* def tell(self, fx):
       super(RemiACMCMC, self).tell(fx)
       if self._adaptive:
           self._loga += (self._gamma *
                          (self._accepted - self._target_acceptance))
       return self._current *)
Definition tell (fx : F) : method F G (option addr) :=
  super_tell fx;;
  s <- get;;
  (if _adaptive s then
     modify (with_loga (fadd (_loga s)
                             (fmul (_gamma s)
                                   (fsub (_accepted s)
                                         (_target_acceptance s)))))
   else ret tt);;
  s <- get;;
  ret (_current s).

End Over.
End Subclass.

Section Frames.
Context {F G : Type}.

(* Every attribute of the sampler other than [_proposed] is the same. *)
Definition attributes_kept_but_proposed (s s' : state F G) : Prop :=
  _x0 s' = _x0 s /\ _sigma0 s' = _sigma0 s /\ _running s' = _running s
  /\ _current s' = _current s /\ _current_log_pdf s' = _current_log_pdf s
  /\ _mu s' = _mu s /\ _sigma s' = _sigma s /\ _loga s' = _loga s
  /\ _adaptation_count s' = _adaptation_count s /\ _gamma s' = _gamma s
  /\ _accepted s' = _accepted s /\ _adaptive s' = _adaptive s
  /\ _target_acceptance s' = _target_acceptance s /\ _eta s' = _eta s
  /\ _iterations s' = _iterations s
  /\ _accepted_count s' = _accepted_count s.

(* Every array of [h] is still there in [h'], contents and flag alike. *)
Definition arrays_kept (h h' : list (ndarray F)) : Prop :=
  forall (a : addr) (o : ndarray F), h !! a = Some o -> h' !! a = Some o.

End Frames.

(** ** [ParabolicError] (pints/toy/_parabola.py)

    [pints.vector] and [np.sum] are library functions and stay parameters:
    [pints_vector c] hands back the array it made of [c].  [x] is a
    one-dimensional sequence. *)

Module ParabolicError.

Record obj := mk_obj { _c : addr; _n : nat }.

Section Methods.
Context {F G : Type} `{FloatOps F}.

Variable pints_vector : list F -> method F G addr.
Variable np_sum : list F -> F.

(* def __init__(self, c=[0, 0]):
       self._c = pints.vector(c)
       self._n = len(self._c) *)
Definition __init__ (c : option (list F)) : method F G obj :=
  a <- pints_vector (default [zero; zero] c);;
  s <- get;;
  ret (mk_obj a (length (default [] (deref (heap s) a)))).

(* [c - x] on one-dimensional arrays: element by element when the lengths
   agree, a single element is stretched over the other operand, anything
   else is numpy's ValueError("operands could not be broadcast
   together"). *)
Definition np_subtract (c x : list F) : outcome (list F) :=
  if length c =? length x then Return (zip_with fsub c x)
  else match x, c with
       | [x0], _ => Return (map (fun ci => fsub ci x0) c)
       | _, [c0] => Return (map (fsub c0) x)
       | _, _ => Raise ValueError
       end.

(* def __call__(self, x):
       return np.sum((self._c - x)**2) *)
Definition __call__ (self : obj) (x : list F) : method F G F :=
  s <- get;;
  match np_subtract (default [] (deref (heap s) (_c self))) x with
  | Return d => ret (np_sum (map (fun e => fpow e (of_Q 2)) d))
  | Raise e => raise e
  end.

(* def n_parameters(self):
       return self._n *)
Definition n_parameters (self : obj) : nat := _n self.

(* def optimum(self):
       return np.array(self._c, copy=True) *)
Definition optimum (self : obj) : method F G addr :=
  s <- get;;
  np_array (default [] (deref (heap s) (_c self))).

End Methods.
End ParabolicError.

(** ** Functional tests (pints/functionaltests)

    [controller.run()] belongs to the controller and stays a parameter; a
    chain is the list of its samples, [chains] the list of the chains. *)

Module functionaltests.

(* Python's [l[n:]] for an integer [n] *)
Definition slice_from {A : Type} (n : Z) (l : list A) : list A :=
  if (n <? 0)%Z
  then drop (Z.to_nat (Z.max 0 (Z.of_nat (length l) + n))) l
  else drop (Z.to_nat n) l.

(* def run_and_throw_away_warmup(controller, n_warmup):
       chains = controller.run()
       return chains[:, n_warmup:] *)
Definition run_and_throw_away_warmup {C A : Type}
    (run : C -> outcome (list (list A))) (controller : C) (n_warmup : Z)
  : outcome (list (list A)) :=
  match run controller with
  | Return chains => Return (map (slice_from n_warmup) chains)
  | Raise e => Raise e
  end.

Inductive sampler_class :=
| MetropolisRandomWalkMCMC | SliceStepoutMCMC | PopulationMCMC
| EmceeHammerMCMC.

Inductive problem_class :=
| RunMcmcMethodOnTwoDimGaussian | RunMcmcMethodOnBanana
| RunMcmcMethodOnAnnulus | RunMcmcMethodOnMultimodalGaussian.

(* The problem a test sets up: the class and the constructor arguments. *)
Record problem := mk_problem {
  cls : problem_class;
  method_ : sampler_class;
  n_chains : Z;
  n_iterations : Z;
  n_warmup : Z;
  method_hyper_parameters : option (list Z)
}.

(* slice_stepout_mcmc.py
   def two_dim_gaussian(n_iterations=5000):
       n_warmup = 500
       if n_warmup > n_iterations // 2:
           n_warmup = n_iterations // 10
       problem = ft.RunMcmcMethodOnTwoDimGaussian(
           method=pints.SliceStepoutMCMC, n_chains=4,
           n_iterations=n_iterations, n_warmup=n_warmup) *)
Definition slice_stepout_two_dim_gaussian (n_iterations : option Z)
  : problem :=
  let n_iterations := default 5000%Z n_iterations in
  let n_warmup := 500%Z in
  let n_warmup := if (n_warmup >? n_iterations / 2)%Z
                  then (n_iterations / 10)%Z else n_warmup in
  mk_problem RunMcmcMethodOnTwoDimGaussian SliceStepoutMCMC 4
             n_iterations n_warmup None.

(* slice_stepout_mcmc.py
   def annulus(n_iterations=10000):
       n_warmup = 2000
       if n_warmup > n_iterations // 2:
           n_warmup = n_iterations // 10
       problem = ft.RunMcmcMethodOnAnnulus(
           method=pints.SliceStepoutMCMC, n_chains=4,
           n_iterations=n_iterations, n_warmup=n_warmup) *)
Definition slice_stepout_annulus (n_iterations : option Z) : problem :=
  let n_iterations := default 10000%Z n_iterations in
  let n_warmup := 2000%Z in
  let n_warmup := if (n_warmup >? n_iterations / 2)%Z
                  then (n_iterations / 10)%Z else n_warmup in
  mk_problem RunMcmcMethodOnAnnulus SliceStepoutMCMC 4
             n_iterations n_warmup None.

(* population_mcmc.py
   def banana(n_iterations=20000):
       n_warmup = 5000  # Needs a lot of warm-up on banana!
       if n_warmup > n_iterations // 2:
           n_warmup = n_iterations // 10
       problem = ft.RunMcmcMethodOnBanana(
           method=pints.PopulationMCMC, n_chains=1,
           n_iterations=n_iterations, n_warmup=n_warmup) *)
Definition population_banana (n_iterations : option Z) : problem :=
  let n_iterations := default 20000%Z n_iterations in
  let n_warmup := 5000%Z in
  let n_warmup := if (n_warmup >? n_iterations / 2)%Z
                  then (n_iterations / 10)%Z else n_warmup in
  mk_problem RunMcmcMethodOnBanana PopulationMCMC 1
             n_iterations n_warmup None.

(* population_mcmc.py
   def multimodal_gaussian(n_iterations=20000, n_temperatures=None):
       n_warmup = 500
       if n_warmup > n_iterations // 2:
           n_warmup = n_iterations // 10
       method_hyper_parameters = None
       if n_temperatures is not None:
           method_hyper_parameters = [n_temperatures]
       problem = ft.RunMcmcMethodOnMultimodalGaussian(
           method=pints.PopulationMCMC, n_chains=1,
           n_iterations=n_iterations, n_warmup=n_warmup,
           method_hyper_parameters=method_hyper_parameters) *)
Definition population_multimodal_gaussian
    (n_iterations : option Z) (n_temperatures : option Z) : problem :=
  let n_iterations := default 20000%Z n_iterations in
  let n_warmup := 500%Z in
  let n_warmup := if (n_warmup >? n_iterations / 2)%Z
                  then (n_iterations / 10)%Z else n_warmup in
  let method_hyper_parameters :=
    match n_temperatures with
    | Some t => Some [t]
    | None => None
    end in
  mk_problem RunMcmcMethodOnMultimodalGaussian PopulationMCMC 1
             n_iterations n_warmup method_hyper_parameters.

(* metropolis.py
   def test_metropolis_on_two_dim_gaussian(n_iterations=None):
       if n_iterations is None:
           n_iterations = 4000
       problem = RunMcmcMethodOnTwoDimGaussian(
           method=pints.MetropolisRandomWalkMCMC, n_chains=4,
           n_iterations=n_iterations, n_warmup=1000) *)
Definition test_metropolis_on_two_dim_gaussian (n_iterations : option Z)
  : problem :=
  let n_iterations := match n_iterations with
                      | None => 4000%Z
                      | Some n => n
                      end in
  mk_problem RunMcmcMethodOnTwoDimGaussian MetropolisRandomWalkMCMC 4
             n_iterations 1000 None.

(* emcee_hammer_mcmc.py
   def two_dim_gaussian(n_iterations=10000, n_warmup=1000):
       problem = ft.RunMcmcMethodOnTwoDimGaussian(
           _method, 10, n_iterations, n_warmup) *)
Definition emcee_hammer_two_dim_gaussian
    (n_iterations : option Z) (n_warmup : option Z) : problem :=
  mk_problem RunMcmcMethodOnTwoDimGaussian EmceeHammerMCMC 10
             (default 10000%Z n_iterations) (default 1000%Z n_warmup) None.

(* RunMcmcMethodOnProblem.__init__, last line:
       self.chains = run_and_throw_away_warmup(controller, n_warmup)
   for the problem [p], with the controller the constructor built. *)
Definition chains_of {C A : Type} (run : C -> outcome (list (list A)))
    (controller : C) (p : problem) : outcome (list (list A)) :=
  run_and_throw_away_warmup run controller (n_warmup p).

(* The controller was told [set_max_iterations(n_iterations)] and its run
   came back with [n_iterations] samples in every chain. *)
Definition ran_for {C A : Type} (run : C -> outcome (list (list A)))
    (controller : C) (p : problem) (chains : list (list A)) : Prop :=
  run controller = Return chains
  /\ Forall (fun chain => Z.of_nat (length chain) = n_iterations p) chains.

(* What the adjustment "if n_warmup > n_iterations // 2: n_warmup =
   n_iterations // 10" amounts to, for a test that starts from the
   warm-up [w]. *)
Definition warmup_adjusted_from (w : Z) (p : problem) : Prop :=
  (0 <= n_warmup p <= n_iterations p / 2)%Z
  /\ (2 * w <= n_iterations p -> n_warmup p = w)%Z
  /\ (n_iterations p < 2 * w -> n_warmup p = n_iterations p / 10)%Z.

(* The tests of slice_stepout_mcmc.py and population_mcmc.py modelled
   above, called with [n_iterations = n]. *)
Definition adjusting_tests (n : Z) (t : option Z) : list problem :=
  [slice_stepout_two_dim_gaussian (Some n); slice_stepout_annulus (Some n);
   population_banana (Some n); population_multimodal_gaussian (Some n) t].

End functionaltests.

(** ** More sample inputs *)

Module More_examples.
Import Exact.

(* a controller whose run yields two chains of four samples *)
Definition run4 (_ : unit) : outcome (list (list nat)) :=
  Return [[10; 11; 12; 13]; [20; 21; 22; 23]].

(* ... and one whose run yields two chains of three samples *)
Definition run3 (_ : unit) : outcome (list (list nat)) :=
  Return [[10; 11; 12]; [20; 21; 22]].

(* [np.sum] in exact arithmetic *)
Definition sum (l : list num) : num := foldr fadd zero l.

(* a parabola whose centre is the array at address 0 of [Examples.fresh],
   (3, 4) *)
Definition parabola : ParabolicError.obj := ParabolicError.mk_obj 0 2.

(* [pints.vector]: a read-only copy *)
Definition vector_copy (c : list num) : method num tape addr :=
  a <- np_array c;; setflags a false;; ret a.

End More_examples.

Ltac unfold_methods :=
  unfold RemiACMCMC.tell, RemiACMCMC.ask, RemiACMCMC._initialise,
    RemiACMCMC.__init__,
    GlobalAdaptiveCovarianceMCMC.tell, GlobalAdaptiveCovarianceMCMC.ask,
    GlobalAdaptiveCovarianceMCMC._initialise,
    GlobalAdaptiveCovarianceMCMC.__init__,
    GlobalAdaptiveCovarianceMCMC.accept_reject,
    GlobalAdaptiveCovarianceMCMC.adapt,
    GlobalAdaptiveCovarianceMCMC.set_initial_phase,
    GlobalAdaptiveCovarianceMCMC.set_target_acceptance_rate,
    GlobalAdaptiveCovarianceMCMC.set_hyper_parameters,
    np_random_uniform, np_random_multivariate_normal, np_array, setflags,
    setitem, bind, ret, raise, get, modify in *.

(* Symbolic execution of a method body: reduce, then split on the next
   test (the innermost scrutinee that is not itself a test), reusing what
   is already known about it. *)
Ltac innermost c :=
  lazymatch c with
  | context [if ?d then _ else _] => innermost d
  | context [match ?d with _ => _ end] => innermost d
  | _ => c
  end.
Ltac split_on c :=
  let d := innermost c in
  first [ match goal with E : d = _ |- _ => rewrite E in * end
        | destruct d eqn:? ].
Ltac exec_step :=
  lazymatch goal with
  | |- context [if ?c then _ else _] => split_on c
  | |- context [match ?c with _ => _ end] => split_on c
  end.
Ltac exec := unfold_methods; repeat (cbn in *; exec_step); cbn in *.

(* The same for a hypothesis [H : m s = (s', o)]: all the paths of [m]
   that can end in [o], with [s'] replaced by the final state. *)
Ltac exec_step_in H :=
  lazymatch type of H with
  | (_, Raise _) = (_, Return _) => discriminate H
  | (_, Return _) = (_, Raise _) => discriminate H
  | context [if ?c then _ else _] => split_on c
  | context [match ?c with _ => _ end] => split_on c
  end.
Ltac exec_in H :=
  unfold_methods; cbn in * |-; repeat (cbn in H; exec_step_in H);
  cbn in H; simplify_eq; cbn in *.

(** ** Properties *)

Section Properties.
Context {F G : Type} `{FloatOps F} `{RandomSource F G}.

Abbreviation St := (state F G).
Abbreviation M := (method F G).

(** The protocol check comes first in [tell]. *)
Lemma tell_not_pending (s : St) (fx : F) :
  _proposed s = None -> RemiACMCMC.tell fx s = (s, Raise RuntimeError).
Proof.
  intros Hp. unfold_methods. now rewrite Hp.
Qed.

Lemma tell_pending_not_runtime (s : St) (fx : F) (p : addr) :
  _proposed s = Some p -> snd (RemiACMCMC.tell fx s) <> Raise RuntimeError.
Proof.
  intros Hp. exec; discriminate.
Qed.

Lemma tell_returns_clears (s s' : St) (fx : F) (r : option addr) :
  RemiACMCMC.tell fx s = (s', Return r) -> _proposed s' = None.
Proof.
  intros Ht. exec_in Ht; reflexivity.
Qed.

(* A fresh array made read-only right away. *)
Lemma alloc_then_read_only (h : list (ndarray F)) (x : list F) :
  alter (fun o => mk_ndarray F (data o) false) (length h)
        (h ++ [mk_ndarray F x true]) = h ++ [mk_ndarray F x false].
Proof.
  replace (length h) with (length h + 0) at 1 by lia.
  now rewrite alter_app_r.
Qed.

(** What [ask] does, by the situation it is called in. *)
Lemma ask_first_call (s : St) :
  _running s = false ->
  exists s1, RemiACMCMC.ask s = (s1, Return (Some (_x0 s)))
             /\ s1 = fst (RemiACMCMC._initialise s)
             /\ heap s1 = heap s /\ rng s1 = rng s
             /\ mvn_draws s1 = mvn_draws s
             /\ _proposed s1 = Some (_x0 s)
             /\ _current_log_pdf s1 = _current_log_pdf s
             /\ _adaptive s1 = _adaptive s.
Proof.
  intros Hr. eexists. split.
  - exec. reflexivity.
  - cbn. now repeat split.
Qed.

Lemma ask_pending (s : St) (p : addr) :
  _running s = true -> _proposed s = Some p ->
  RemiACMCMC.ask s = (s, Return (Some p)).
Proof.
  intros Hr Hp. exec. now rewrite Hp.
Qed.

Lemma ask_draw (s : St) (c : addr) (m : vector) :
  _running s = true -> _proposed s = None ->
  _current s = Some c -> deref (heap s) c = Some m ->
  let cov := mscale (np_exp (_loga s)) (_sigma s) in
  let p := length (heap s) in
  exists s', RemiACMCMC.ask s = (s', Return (Some p))
             /\ heap s' = heap s
                           ++ [mk_ndarray F (multivariate_normal (rng s) m cov).1
                                          false]
             /\ rng s' = (multivariate_normal (rng s) m cov).2
             /\ mvn_draws s' = S (mvn_draws s)
             /\ _proposed s' = Some p
             /\ _running s' = true.
Proof.
  intros Hr Hp Hc Hm cov p. subst cov p.
  destruct (multivariate_normal (rng s) m
              (mscale (np_exp (_loga s)) (_sigma s))) as [x g] eqn:Hdraw.
  assert (Hmean : _current s ≫= deref (heap s) = Some m)
    by (rewrite Hc; exact Hm).
  eexists. split.
  - exec. reflexivity.
  - cbn. rewrite alloc_then_read_only. now repeat split.
Qed.

(** *** The invariant of executions *)

Lemma read_only_setitem (h : list (ndarray F)) (a : addr) (o : ndarray F) :
  read_only h -> h !! a = Some o -> writeable o = false.
Proof.
  intros Hro Ha. unfold read_only in Hro. rewrite Forall_lookup in Hro.
  exact (Hro a o Ha).
Qed.

Lemma invariant_init (g : G) (undef : F) (x0 : vector)
    (sigma0 : option matrix) :
  invariant (RemiACMCMC.__init__ g undef x0 sigma0).
Proof.
  split; cbn; try discriminate; try lia.
  - repeat constructor.
  - intros [? [=]].
Qed.

Lemma invariant_step (s s' : St) : invariant s -> step s s' -> invariant s'.
Proof.
  intros Hinv Hstep. destruct Hstep; exec; try assumption.
  all: destruct Hinv as [Hro Hx0 Hp Hc Hl Ha].
  all: try match goal with
       | Hn : heap _ !! _ = Some ?n, Hw : negb (writeable ?n) = false |- _ =>
           rewrite (read_only_setitem _ _ _ Hro Hn) in Hw; discriminate Hw
       end.
  all: split; cbn;
    rewrite ?alloc_then_read_only; rewrite ?length_app; cbn;
    try assumption; try (intros; discriminate).
  all: try (intros; simplify_eq; eauto; try lia; fail).
  all: try (apply Forall_app; split; [assumption | repeat constructor]).
  all: try (intros c0 Hq; simplify_eq;
            repeat match goal with
            | Hq : _proposed _ = Some _ |- _ => apply Hp in Hq
            | Hq : _current _ = Some _ |- _ => apply Hc in Hq
            end; intuition lia).
Qed.

Lemma reachable_invariant (s : St) : reachable s -> invariant s.
Proof.
  induction 1 as [| s s' _ IH Hstep].
  - apply invariant_init.
  - exact (invariant_step s s' IH Hstep).
Qed.

(* Once a current log-density exists the sampler has been initialised. *)
Lemma started_running (s : St) :
  reachable s -> started s -> _running s = true.
Proof.
  unfold started. induction 1 as [| s s' Hreach IH Hstep].
  - cbn. intros [? [=]].
  - pose proof (reachable_invariant s Hreach) as Hinv.
    destruct Hstep; exec; try assumption; try reflexivity.
    all: try (intros; destruct (inv_proposed s Hinv _ ltac:(eassumption));
              congruence).
    all: intros; first [assumption | now apply IH].
Qed.

(* The array of the initial point is in the store. *)
Lemma initial_point_stored (s : St) :
  invariant s -> exists m, deref (heap s) (_x0 s) = Some m.
Proof.
  intros Hinv.
  destruct (lookup_lt_is_Some_2 _ _ (inv_x0 s Hinv)) as [o Ho].
  exists (data o). exact (f_equal (fmap data) Ho).
Qed.

(* The first round, run in the initial phase, leaves the sampler as
   initialised, with the initial point as its current point. *)
Lemma first_round_in_initial_phase (s s2 : St) (fx : F) (r : option addr) :
  reachable s -> _running s = false -> in_initial_phase s = true ->
  RemiACMCMC.tell fx (fst (RemiACMCMC.ask s)) = (s2, Return r) ->
  _running s2 = true /\ _proposed s2 = None
  /\ _current s2 = Some (_x0 s) /\ heap s2 = heap s
  /\ _loga s2 = zero /\ _sigma s2 = _sigma0 s.
Proof.
  intros Hreach Hr Hphase Ht.
  assert (Hclp : _current_log_pdf s = None).
  { destruct (_current_log_pdf s) as [cur|] eqn:Hclp; [|reflexivity].
    assert (Hst : started s) by (unfold started; rewrite Hclp; eauto).
    rewrite (started_running s Hreach Hst) in Hr. discriminate Hr. }
  unfold in_initial_phase in Hphase. apply negb_true_iff in Hphase.
  destruct (ask_first_call s Hr) as (s1 & Hask & Hs1 & _).
  rewrite Hask in Ht. cbn [fst] in Ht. subst s1.
  exec_in Ht; try congruence. now repeat split.
Qed.

(** Consequences of the invariant. *)
Lemma awaiting_ask_current (s : St) :
  invariant s -> _running s = true -> _proposed s = None ->
  exists c m, _current s = Some c /\ deref (heap s) c = Some m.
Proof.
  intros Hinv Hr Hp.
  destruct (inv_awaiting_ask s Hinv Hr Hp) as [c Hc].
  destruct (lookup_lt_is_Some_2 _ _ (inv_current s Hinv c Hc)) as [o Ho].
  exists c, (data o). split; [exact Hc|].
  exact (f_equal (fmap data) Ho).
Qed.

Lemma pending_read_only (s : St) (p : addr) :
  invariant s -> _proposed s = Some p ->
  _running s = true
  /\ exists o, heap s !! p = Some o /\ writeable o = false.
Proof.
  intros Hinv Hp. destruct (inv_proposed s Hinv p Hp) as [Hlt Hr].
  split; [exact Hr|].
  destruct (lookup_lt_is_Some_2 _ _ Hlt) as [o Ho].
  exists o. split; [exact Ho|].
  exact (read_only_setitem _ _ _ (inv_read_only s Hinv) Ho).
Qed.

Lemma asks_pending (s : St) (p : addr) (n : nat) :
  _running s = true -> _proposed s = Some p ->
  asks n s = (s, Return (replicate n (Some p))).
Proof.
  intros Hr Hp. induction n as [|n IH]; [reflexivity|].
  cbn [asks replicate]. unfold bind at 1. rewrite (ask_pending s p Hr Hp).
  unfold bind at 1. now rewrite IH.
Qed.

Lemma tell_keeps_mvn_draws (s : St) (fx : F) :
  mvn_draws (fst (RemiACMCMC.tell fx s)) = mvn_draws s.
Proof.
  exec; reflexivity.
Qed.

Lemma mscale_one (m : matrix) :
  (forall x : F, fmul one x = x) -> mscale one m = m.
Proof.
  intros Hone. unfold mscale, vscale.
  rewrite <- (map_id m) at 2. apply map_ext. intros row.
  rewrite <- (map_id row) at 2. apply map_ext. exact Hone.
Qed.

(** *** The claims *)

(** C6. [tell] raises the protocol error (RuntimeError) exactly when no
    proposal is pending, and then leaves the whole state as it was.  In
    particular a [tell] right after construction raises it, and so does a
    [tell] that follows a completed [tell] with no [ask] in between. *)
Theorem tell_protocol_error (s : St) (fx : F) :
  (snd (RemiACMCMC.tell fx s) = Raise RuntimeError <-> _proposed s = None)
  /\ (_proposed s = None -> fst (RemiACMCMC.tell fx s) = s)
  /\ (forall (g : G) (undef : F) (x0 : vector) (sigma0 : option matrix),
        let s0 := RemiACMCMC.__init__ g undef x0 sigma0 in
        RemiACMCMC.tell fx s0 = (s0, Raise RuntimeError))
  /\ (forall (s1 : St) (r : option addr) (fx' : F),
        RemiACMCMC.tell fx s = (s1, Return r) ->
        RemiACMCMC.tell fx' s1 = (s1, Raise RuntimeError)).
Proof.
  repeat split.
  - destruct (_proposed s) as [p|] eqn:Hp; [|reflexivity].
    intros Hr. now apply tell_pending_not_runtime with (fx := fx) in Hp.
  - intros Hp. rewrite (tell_not_pending s fx Hp). reflexivity.
  - intros Hp. rewrite (tell_not_pending s fx Hp). reflexivity.
  - intros s1 r fx' Ht. apply tell_not_pending.
    exact (tell_returns_clears _ _ _ _ Ht).
Qed.

(** C5. The very first [tell] (a proposal is pending and there is no
    current log-density yet) accepts the pending point without any random
    draw when the supplied log-density is finite: it becomes the current
    point, the log-density is stored, and the point is returned.  When the
    log-density is not finite, the call raises ValueError and changes
    nothing.  After construction and a first [ask] the sampler is in that
    situation, with the initial point [x0] pending. *)
Theorem first_tell_accepts_or_raises (s : St) (fx : F) (p : addr) :
  _proposed s = Some p -> _current_log_pdf s = None ->
  (if np_isfinite fx
   then exists s', RemiACMCMC.tell fx s = (s', Return (Some p))
                   /\ _current s' = Some p
                   /\ _current_log_pdf s' = Some fx
                   /\ heap s' = heap s /\ rng s' = rng s
   else RemiACMCMC.tell fx s = (s, Raise ValueError))
  /\ (forall (g : G) (undef : F) (x0 : vector) (sigma0 : option matrix),
        let s0 := RemiACMCMC.__init__ g undef x0 sigma0 in
        let s1 := fst (RemiACMCMC.ask s0) in
        _proposed s1 = Some (_x0 s0) /\ _current_log_pdf s1 = None
        /\ deref (heap s1) (_x0 s0) = Some x0).
Proof.
  intros Hp Hl. split.
  - destruct (np_isfinite fx) eqn:Hfin.
    + exec; (eexists; split; [reflexivity|]); cbn; now repeat split.
    + exec; reflexivity.
  - intros. cbn. now repeat split.
Qed.

(** C4. A [tell] that is not the first one (a current log-density exists)
    and answers a pending proposal with a non-finite log-density returns
    normally and rejects: the current point, its contents, the current
    log-density and the acceptance count are what they were, and the
    retained current point is returned. *)
Theorem tell_nonfinite_rejects (s : St) (fx cur : F) (p : addr) :
  _proposed s = Some p -> _current_log_pdf s = Some cur ->
  np_isfinite fx = false ->
  exists s', RemiACMCMC.tell fx s = (s', Return (_current s))
             /\ _current s' = _current s
             /\ _current_log_pdf s' = Some cur
             /\ _accepted_count s' = _accepted_count s
             /\ heap s' = heap s.
Proof.
  intros Hp Hl Hfin.
  exec; (eexists; split; [reflexivity|]); cbn; repeat split; congruence.
Qed.

(** C8. While the sampler is in its initial phase every [tell], whether
    it returns or raises, leaves [log_a] as it was (and with it the
    adaptation count, [sigma] and [mu]: no adaptation takes place); and
    [set_initial_phase] returns without touching the acceptance count,
    the iteration count or the adaptation count. *)
Theorem initial_phase_suppresses_adaptation (s : St) :
  (forall fx : F,
     in_initial_phase s = true ->
     let s' := fst (RemiACMCMC.tell fx s) in
     _loga s' = _loga s /\ _adaptation_count s' = _adaptation_count s
     /\ _sigma s' = _sigma s /\ _mu s' = _mu s)
  /\ (forall b : bool,
        exists s', GlobalAdaptiveCovarianceMCMC.set_initial_phase b s
                   = (s', Return tt)
                   /\ in_initial_phase s' = b
                   /\ _accepted_count s' = _accepted_count s
                   /\ _iterations s' = _iterations s
                   /\ _adaptation_count s' = _adaptation_count s).
Proof.
  split.
  - intros fx Hphase. unfold in_initial_phase in Hphase.
    apply negb_true_iff in Hphase. exec; try congruence.
    all: now repeat split.
  - intros b. eexists. split; [reflexivity|]. unfold in_initial_phase.
    cbn. split; [apply negb_involutive|]. now repeat split.
Qed.

(** C9. The first [ask] after construction returns the initial point
    itself: the object stored as [_x0], whose contents are the [x0] given
    to the constructor.  No random draw is made. *)
Theorem first_ask_returns_x0 (g : G) (undef : F) (x0 : vector)
    (sigma0 : option matrix) :
  let s0 := RemiACMCMC.__init__ g undef x0 sigma0 in
  exists s1, RemiACMCMC.ask s0 = (s1, Return (Some (_x0 s0)))
             /\ deref (heap s1) (_x0 s0) = Some x0
             /\ rng s1 = g /\ mvn_draws s1 = 0.
Proof.
  intros s0.
  destruct (ask_first_call s0 eq_refl)
    as (s1 & Hask & _ & Hheap & Hrng & Hdraws & _).
  exists s1. rewrite Hheap, Hrng, Hdraws. now repeat split.
Qed.

Lemma eqb_succ_false (n : nat) : Nat.eqb n (S n) = false.
Proof. apply Nat.eqb_neq. lia. Qed.

Ltac indicator :=
  unfold accepted_indicator, was_accepted; cbn;
  rewrite ?Nat.eqb_refl, ?eqb_succ_false.

(** C1. A [tell] that returns while adaptation is on (outside the initial
    phase) has incremented [adaptation_count] by one, set [gamma] to
    [adaptation_count ** -eta] for the new count, and added
    [gamma * (accepted_indicator - target_acceptance_rate)] to [log_a],
    where the indicator is one if this call accepted the proposal (the
    acceptance count went up, the proposal became the current point) and
    zero if it rejected it (current point and log-density retained).  The
    [gamma] in the [log_a] update is the stored [_gamma], the very value
    the covariance and mean update of the same call used. *)
Theorem tell_adaptive_scale_update (s s' : St) (fx : F) (r : option addr) :
  _adaptive s = true -> RemiACMCMC.tell fx s = (s', Return r) ->
  let x := GlobalAdaptiveCovarianceMCMC.current_point s' in
  let d := vsub x (_mu s) in
  _adaptation_count s' = S (_adaptation_count s)
  /\ _gamma s' = fpow (of_nat (_adaptation_count s')) (fneg (_eta s))
  /\ _loga s' = fadd (_loga s)
                     (fmul (_gamma s')
                           (fsub (accepted_indicator s s')
                                 (_target_acceptance s)))
  /\ (if was_accepted s s'
      then _current s' = _proposed s /\ _current_log_pdf s' = Some fx
      else _current s' = _current s
           /\ _current_log_pdf s' = _current_log_pdf s)
  /\ _sigma s' = madd (mscale (fsub one (_gamma s')) (_sigma s))
                      (mscale (_gamma s') (outer d d))
  /\ _mu s' = vadd (vscale (fsub one (_gamma s')) (_mu s))
                   (vscale (_gamma s') x).
Proof.
  intros Ha Ht. exec_in Ht; try congruence.
  all: indicator; repeat split; congruence.
Qed.

(** C3 (amended). On an initialised sampler (every [ask] after the
    first) with no proposal pending, the current point exists, and an
    [ask] that returns hands out a new array drawn by
    [np.random.multivariate_normal] with mean the contents of the current
    point and covariance [exp(log_a) * sigma]; that array becomes the
    pending proposal.  The first [ask] is different: it returns the
    initial point and makes no draw.  Initialisation sets [log_a] to zero
    and [sigma] to the seed, so that (as [exp 0 = 1] and [1 * x = x]) the
    proposal covariance is the seed [sigma0] then; and if the first round
    is run in the initial phase, the first draw is made around [x0] with
    that covariance. *)
Theorem ask_draws_scaled_normal :
  (forall s : St,
     reachable s -> _running s = true -> _proposed s = None ->
     exists (c : addr) (m : vector),
       _current s = Some c /\ deref (heap s) c = Some m
       /\ forall (s' : St) (r : option addr),
            RemiACMCMC.ask s = (s', Return r) ->
            r = Some (length (heap s)) /\ _proposed s' = r
            /\ drawn_from s s' (length (heap s)) m
                          (mscale (np_exp (_loga s)) (_sigma s)))
  /\ (forall s : St,
        reachable s -> _running s = false ->
        exists s' : St,
          RemiACMCMC.ask s = (s', Return (Some (_x0 s)))
          /\ rng s' = rng s /\ mvn_draws s' = mvn_draws s)
  /\ (forall s : St,
        let s' := fst (RemiACMCMC._initialise s) in
        _loga s' = zero /\ _sigma s' = _sigma0 s
        /\ (np_exp zero = one -> (forall x : F, fmul one x = x) ->
            mscale (np_exp (_loga s')) (_sigma s') = _sigma0 s))
  /\ (forall (s s2 : St) (fx : F) (r : option addr),
        reachable s -> _running s = false -> in_initial_phase s = true ->
        RemiACMCMC.tell fx (fst (RemiACMCMC.ask s)) = (s2, Return r) ->
        _running s2 = true /\ _proposed s2 = None
        /\ mscale (np_exp (_loga s2)) (_sigma s2)
           = mscale (np_exp zero) (_sigma0 s)
        /\ (np_exp zero = one -> (forall x : F, fmul one x = x) ->
            mscale (np_exp (_loga s2)) (_sigma s2) = _sigma0 s)
        /\ exists m : vector,
             deref (heap s) (_x0 s) = Some m
             /\ forall (s3 : St) (r3 : option addr),
                  RemiACMCMC.ask s2 = (s3, Return r3) ->
                  r3 = Some (length (heap s2))
                  /\ drawn_from s2 s3 (length (heap s2)) m
                                (mscale (np_exp zero) (_sigma0 s))).
Proof.
  assert (Hdrawn : forall (s : St) (c : addr) (m : vector),
             _running s = true -> _proposed s = None ->
             _current s = Some c -> deref (heap s) c = Some m ->
             forall (s' : St) (r : option addr),
               RemiACMCMC.ask s = (s', Return r) ->
               r = Some (length (heap s)) /\ _proposed s' = r
               /\ drawn_from s s' (length (heap s)) m
                             (mscale (np_exp (_loga s)) (_sigma s))).
  { intros s c m Hr Hp Hc Hm s' r Hask.
    destruct (ask_draw s c m Hr Hp Hc Hm)
      as (s'' & Hask' & Hheap & Hrng & Hdraws & Hp' & _).
    rewrite Hask' in Hask. injection Hask as <- <-.
    split; [reflexivity|]. split; [exact Hp'|].
    repeat split; try assumption.
    unfold deref. rewrite Hheap.
    rewrite lookup_app_r by lia. now rewrite Nat.sub_diag. }
  repeat apply conj.
  - intros s Hreach Hr Hp.
    destruct (awaiting_ask_current s (reachable_invariant s Hreach) Hr Hp)
      as (c & m & Hc & Hm).
    exists c, m. split; [exact Hc|]. split; [exact Hm|].
    exact (Hdrawn s c m Hr Hp Hc Hm).
  - intros s _ Hr.
    destruct (ask_first_call s Hr)
      as (s1 & Hask & _ & _ & Hrng & Hdraws & _).
    exists s1. now repeat split.
  - intros s s'. subst s'. cbn. repeat split.
    intros Hexp Hone. rewrite Hexp. now apply mscale_one.
  - intros s s2 fx r Hreach Hr Hphase Ht.
    destruct (first_round_in_initial_phase s s2 fx r Hreach Hr Hphase Ht)
      as (Hr2 & Hp2 & Hc2 & Hh2 & Hl2 & Hsig2).
    destruct (initial_point_stored s (reachable_invariant s Hreach))
      as [m Hm].
    split; [exact Hr2|]. split; [exact Hp2|].
    split; [now rewrite Hl2, Hsig2|]. split.
    + intros Hexp Hone. rewrite Hl2, Hsig2, Hexp. now apply mscale_one.
    + exists m. split; [exact Hm|]. intros s3 r3 Hask.
      assert (Hm2 : deref (heap s2) (_x0 s) = Some m) by now rewrite Hh2.
      destruct (Hdrawn s2 (_x0 s) m Hr2 Hp2 Hc2 Hm2 s3 r3 Hask)
        as (Hr3 & _ & Hdraw).
      split; [exact Hr3|]. now rewrite Hl2, Hsig2 in Hdraw.
Qed.

(** C7. In every state of an execution with a proposal pending, [ask]
    returns that same object and changes nothing, however often it is
    repeated; the object is read-only, so an attempt to assign to one of
    its elements raises and leaves everything as it was. *)
Theorem ask_idempotent_read_only (s : St) (p : addr) :
  reachable s -> _proposed s = Some p ->
  RemiACMCMC.ask s = (s, Return (Some p))
  /\ (forall n : nat, asks n s = (s, Return (replicate n (Some p))))
  /\ (exists o, heap s !! p = Some o /\ writeable o = false)
  /\ (forall (i : nat) (v : F), setitem p i v s = (s, Raise ValueError)).
Proof.
  intros Hreach Hp.
  destruct (pending_read_only s p (reachable_invariant s Hreach) Hp)
    as (Hr & o & Ho & Hw).
  repeat split.
  - exact (ask_pending s p Hr Hp).
  - intros n. exact (asks_pending s p n Hr Hp).
  - exists o. now split.
  - intros i v. unfold setitem, bind, get, raise. cbn in *.
    now rewrite Ho, Hw.
Qed.

(** C10 (amended). With a proposal pending, [ask] makes no draw: any
    number of repeated calls leaves the generator and the whole state
    unchanged.  A round that starts with no proposal pending on an
    initialised sampler (any round after the first) makes exactly one
    multivariate-normal draw, whatever the number of [ask] calls before
    its [tell]; the first round, whose candidate is the initial point,
    makes none. *)
Theorem mvn_draws_per_round (s : St) :
  reachable s ->
  (forall (p : addr) (n : nat),
     _proposed s = Some p -> asks n s = (s, Return (replicate n (Some p))))
  /\ (_proposed s = None -> _running s = true ->
      forall (n : nat) (fx : F),
        exists s1 p,
          asks (S n) s = (s1, Return (replicate (S n) (Some p)))
          /\ mvn_draws s1 = S (mvn_draws s)
          /\ mvn_draws (fst (RemiACMCMC.tell fx s1)) = S (mvn_draws s))
  /\ (_running s = false ->
      forall (n : nat) (fx : F),
        exists s1,
          asks (S n) s = (s1, Return (replicate (S n) (Some (_x0 s))))
          /\ rng s1 = rng s
          /\ mvn_draws (fst (RemiACMCMC.tell fx s1)) = mvn_draws s).
Proof.
  intros Hreach. pose proof (reachable_invariant s Hreach) as Hinv.
  repeat apply conj.
  - intros p n Hp.
    destruct (pending_read_only s p Hinv Hp) as [Hr _].
    exact (asks_pending s p n Hr Hp).
  - intros Hp Hr n fx.
    destruct (awaiting_ask_current s Hinv Hr Hp) as (c & m & Hc & Hm).
    destruct (ask_draw s c m Hr Hp Hc Hm)
      as (s1 & Hask & _ & _ & Hdraws & Hp1 & Hr1).
    exists s1, (length (heap s)). repeat split.
    + cbn [asks replicate]. unfold bind at 1. rewrite Hask.
      unfold bind at 1. now rewrite (asks_pending s1 _ n Hr1 Hp1).
    + exact Hdraws.
    + now rewrite tell_keeps_mvn_draws.
  - intros Hr n fx.
    destruct (ask_first_call s Hr)
      as (s1 & Hask & Hs1 & _ & Hrng & Hdraws & Hp1 & _).
    assert (Hr1 : _running s1 = true) by now subst s1.
    exists s1. repeat split.
    + cbn [asks replicate]. unfold bind at 1. rewrite Hask.
      unfold bind at 1. now rewrite (asks_pending s1 _ n Hr1 Hp1).
    + exact Hrng.
    + now rewrite tell_keeps_mvn_draws.
Qed.

End Properties.

(** ** The claims on the sample runs *)

Import Exact Examples.

Lemma exact_mul_one (x : num) : fmul one x = x.
Proof.
  destruct x as [[n d]|]; [|reflexivity]. cbn. unfold Qmult; cbn.
  now destruct n.
Qed.

Lemma reachable_asked : reachable asked.
Proof.
  exact (reachable_step _ _ (reachable_init _ _ _ _) (step_ask _)).
Defined.

Lemma reachable_told : reachable told.
Proof.
  exact (reachable_step _ _ reachable_asked (step_tell _ _)).
Defined.

Lemma tell_adaptive_scale_update_witness :
  _adaptive adaptive_asked = true
  /\ RemiACMCMC.tell (Some 2%Q) adaptive_asked
     = (adaptive_told, Return (Some 0))
  /\ _adaptation_count adaptive_told = 1
  /\ _gamma adaptive_told = Some 1%Q
  /\ _loga adaptive_told = Some (766 # 1000)%Q.
Proof.
  assert (Ha : _adaptive adaptive_asked = true) by reflexivity.
  assert (Ht : RemiACMCMC.tell (Some 2%Q) adaptive_asked
               = (adaptive_told, Return (Some 0))) by reflexivity.
  destruct (tell_adaptive_scale_update _ _ _ _ Ha Ht)
    as (Hcount & Hgamma & Hloga & _).
  split; [exact Ha|]. split; [exact Ht|].
  split; [exact Hcount|]. split; [exact Hgamma | exact Hloga].
Defined.

Lemma reachable_asked_again : reachable asked_again.
Proof.
  exact (reachable_step _ _ reachable_told (step_ask _)).
Defined.

Lemma ask_draws_scaled_normal_witness :
  (reachable told /\ _running told = true /\ _proposed told = None
   /\ RemiACMCMC.ask told = (asked_again, Return (Some 1))
   /\ exists m, deref (heap told) 0 = Some m
                /\ drawn_from told asked_again 1 m
                              (mscale (np_exp (_loga told)) (_sigma told)))
  /\ (np_exp zero = one /\ (forall x : num, fmul one x = x)
      /\ mscale (np_exp (_loga asked)) (_sigma asked) = _sigma0 fresh)
  /\ (reachable fresh /\ _running fresh = false
      /\ in_initial_phase fresh = true
      /\ RemiACMCMC.tell (Some 2%Q) (fst (RemiACMCMC.ask fresh))
         = (told, Return (Some 0))
      /\ mscale (np_exp (_loga told)) (_sigma told) = _sigma0 fresh).
Proof.
  destruct (@ask_draws_scaled_normal num tape ops replay)
    as (Hdraw & _ & Hinit & Hfirst).
  assert (Hask : RemiACMCMC.ask told = (asked_again, Return (Some 1)))
    by reflexivity.
  assert (Ht : RemiACMCMC.tell (Some 2%Q) (fst (RemiACMCMC.ask fresh))
               = (told, Return (Some 0))) by reflexivity.
  split; [|split].
  - destruct (Hdraw told reachable_told eq_refl eq_refl)
      as (c & m & Hc & Hm & Hdrawn).
    injection Hc as <-.
    destruct (Hdrawn asked_again (Some 1) Hask) as (_ & _ & Hfrom).
    split; [exact reachable_told|]. split; [reflexivity|].
    split; [reflexivity|]. split; [exact Hask|].
    exists m. split; [exact Hm | exact Hfrom].
  - destruct (Hinit fresh) as (_ & _ & Hcov).
    split; [reflexivity|]. split; [exact exact_mul_one|].
    exact (Hcov eq_refl exact_mul_one).
  - destruct (Hfirst fresh told (Some 2%Q) (Some 0)
                     (reachable_init _ _ _ _) eq_refl eq_refl Ht)
      as (_ & _ & _ & Hseed & _).
    split; [exact (reachable_init _ _ _ _)|]. split; [reflexivity|].
    split; [reflexivity|]. split; [exact Ht|].
    exact (Hseed eq_refl exact_mul_one).
Defined.

(** C3 as stated fails in two places.  The first [ask] of a new sampler
    is called with no proposal pending and returns without any draw (its
    candidate is the initial point); and when adaptation is on from the
    first round, [log_a] and [sigma] have moved before the first draw,
    whose covariance is then not the seed (here [sigma] has become the
    zero matrix). *)
Lemma first_ask_is_not_a_draw :
  ~ @ask_without_pending_draws num tape ops replay
  /\ ~ @first_draw_has_seed_covariance num tape ops replay.
Proof.
  split.
  - intros Hclaim.
    destruct (Hclaim fresh asked (Some 0) (reachable_init _ _ _ _)
                     eq_refl eq_refl)
      as (c & p & m & _ & _ & _ & _ & _ & Hdraws).
    discriminate Hdraws.
  - intros Hclaim.
    pose proof (Hclaim
                  (GlobalAdaptiveCovarianceMCMC.set_initial_phase false
                     fresh).1
                  adaptive_told (Some 2%Q) (Some 0)
                  (reachable_step _ _ (reachable_init _ _ _ _)
                     (step_set_initial_phase _ false))
                  eq_refl eq_refl) as Hcov.
    discriminate Hcov.
Qed.

Lemma tell_nonfinite_rejects_witness :
  _proposed asked_again = Some 1
  /\ _current_log_pdf asked_again = Some (Some 2%Q)
  /\ np_isfinite (None : num) = false
  /\ snd (RemiACMCMC.tell None asked_again) = Return (Some 0)
  /\ _accepted_count (fst (RemiACMCMC.tell None asked_again)) = 1.
Proof.
  destruct (@tell_nonfinite_rejects num tape ops replay
              asked_again None (Some 2%Q) 1
              eq_refl eq_refl eq_refl)
    as (s' & Ht & _ & _ & Hacc & _).
  split; [reflexivity|]. split; [reflexivity|]. split; [reflexivity|].
  rewrite Ht. split; [reflexivity | exact Hacc].
Defined.

Lemma first_tell_accepts_or_raises_witness :
  _proposed asked = Some 0 /\ _current_log_pdf asked = None
  /\ (exists s', RemiACMCMC.tell (Some 2%Q) asked = (s', Return (Some 0))
                 /\ _current s' = Some 0
                 /\ _current_log_pdf s' = Some (Some 2%Q)
                 /\ heap s' = heap asked /\ rng s' = rng asked)
  /\ RemiACMCMC.tell None asked = (asked, Raise ValueError).
Proof.
  split; [reflexivity|]. split; [reflexivity|]. split.
  - exact (proj1 (@first_tell_accepts_or_raises num tape ops replay
                    asked (Some 2%Q) 0
                    eq_refl eq_refl)).
  - exact (proj1 (@first_tell_accepts_or_raises num tape ops replay
                    asked None 0
                    eq_refl eq_refl)).
Defined.

Lemma tell_protocol_error_witness :
  _proposed told = None
  /\ snd (RemiACMCMC.tell (Some 1%Q) told) = Raise RuntimeError
  /\ fst (RemiACMCMC.tell (Some 1%Q) told) = told
  /\ RemiACMCMC.tell (Some 2%Q) asked = (told, Return (Some 0))
  /\ RemiACMCMC.tell (Some 1%Q) told = (told, Raise RuntimeError).
Proof.
  assert (Ht : RemiACMCMC.tell (Some 2%Q) asked = (told, Return (Some 0)))
    by reflexivity.
  destruct (tell_protocol_error told (Some 1%Q)) as (Hiff & Hstate & _ & _).
  destruct (tell_protocol_error asked (Some 2%Q)) as (_ & _ & _ & Htwice).
  split; [reflexivity|]. split; [exact (proj2 Hiff eq_refl)|].
  split; [exact (Hstate eq_refl)|]. split; [exact Ht|].
  exact (Htwice told (Some 0) (Some 1%Q) Ht).
Defined.

Lemma ask_idempotent_read_only_witness :
  reachable asked_again /\ _proposed asked_again = Some 1
  /\ RemiACMCMC.ask asked_again = (asked_again, Return (Some 1))
  /\ asks 3 asked_again = (asked_again, Return [Some 1; Some 1; Some 1])
  /\ setitem 1 0 (Some 9%Q) asked_again = (asked_again, Raise ValueError).
Proof.
  destruct (ask_idempotent_read_only asked_again 1 reachable_asked_again
              eq_refl)
    as (Hask & Hasks & _ & Hset).
  split; [exact reachable_asked_again|]. split; [reflexivity|].
  split; [exact Hask|]. split; [exact (Hasks 3) | exact (Hset 0 (Some 9%Q))].
Defined.

Lemma initial_phase_suppresses_adaptation_witness :
  in_initial_phase asked = true
  /\ _loga (fst (RemiACMCMC.tell (Some 2%Q) asked)) = _loga asked.
Proof.
  split; [reflexivity|].
  exact (proj1 (proj1 (initial_phase_suppresses_adaptation asked)
                      (Some 2%Q) eq_refl)).
Defined.

Lemma mvn_draws_per_round_witness :
  reachable told /\ _proposed told = None /\ _running told = true
  /\ mvn_draws told = 0
  /\ mvn_draws (fst (RemiACMCMC.tell (Some 5%Q) (fst (asks 3 told)))) = 1.
Proof.
  destruct (mvn_draws_per_round told reachable_told) as (_ & Hlater & _).
  destruct (Hlater eq_refl eq_refl 2 (Some 5%Q))
    as (s1 & p & Hasks & _ & Hdraws).
  split; [exact reachable_told|]. split; [reflexivity|].
  split; [reflexivity|]. split; [reflexivity|].
  rewrite Hasks. exact Hdraws.
Defined.

(** C10 as stated fails on the first round: from a new sampler, [ask]
    then [tell] complete without any multivariate-normal draw. *)
Lemma first_round_makes_no_draw :
  ~ (@no_draw_when_pending num tape ops replay
     /\ @one_draw_per_round num tape ops replay).
Proof.
  intros [_ Hclaim].
  assert (Hask : RemiACMCMC.ask fresh = (asked, Return (Some 0)))
    by reflexivity.
  assert (Ht : RemiACMCMC.tell (Some 2%Q) asked = (told, Return (Some 0)))
    by reflexivity.
  pose proof (Hclaim fresh asked told (Some 0) (Some 0) (Some 2%Q)
                (reachable_init _ _ _ _) eq_refl Hask Ht) as Hdraws.
  discriminate Hdraws.
Qed.

(** ** More properties of the code *)

(** *** [RemiACMCMC] for any base class *)

Section Subclass_properties.
Context {F G : Type} `{FloatOps F} `{RandomSource F G} {B C : Type}.
Variable super_ask : method F G B.
Variable super_tell : F -> method F G C.

Abbreviation St := (state F G).

(* Run the [super()] call with its known result, then the rest. *)
Ltac after_super Hsuper :=
  unfold Subclass.ask, Subclass.tell; unfold bind at 1; rewrite Hsuper;
  exec.

(** The subclass code is the [RemiACMCMC] of the model. *)
Lemma subclass_ask_is_ask :
  RemiACMCMC.ask
  = Subclass.ask (GlobalAdaptiveCovarianceMCMC.ask RemiACMCMC._initialise).
Proof. reflexivity. Qed.

Lemma subclass_tell_is_tell (fx : F) :
  RemiACMCMC.tell fx
  = Subclass.tell GlobalAdaptiveCovarianceMCMC.tell fx.
Proof. reflexivity. Qed.

(** X1. Whatever the base class does in its [ask]: if it returns and a
    proposal is pending afterwards, [ask] returns that proposal and leaves
    the state exactly as the base class left it (no draw, no new array,
    no flag set). *)
Theorem ask_returns_pending_proposal_untouched
    (s s1 : St) (b : B) (p : addr) :
  super_ask s = (s1, Return b) -> _proposed s1 = Some p ->
  Subclass.ask super_ask s = (s1, Return (Some p)).
Proof.
  intros Hsuper Hp. after_super Hsuper. now rewrite Hp.
Qed.

(** X2. [ask] never touches the chain or the adaptation state: whether it
    returns the cached proposal, draws a new one or raises, every
    attribute other than [_proposed] is as the base-class call left it,
    every array that existed keeps its contents and flag, and at most one
    multivariate-normal draw has been made. *)
Theorem ask_keeps_chain_and_adaptation_state (s s1 : St) (b : B) :
  super_ask s = (s1, Return b) ->
  let s' := fst (Subclass.ask super_ask s) in
  attributes_kept_but_proposed s1 s'
  /\ arrays_kept (heap s1) (heap s')
  /\ mvn_draws s1 <= mvn_draws s' <= S (mvn_draws s1).
Proof.
  intros Hsuper. after_super Hsuper.
  all: split; [now repeat split|]; split; [|lia].
  all: intros k arr Hk; try exact Hk.
  rewrite alloc_then_read_only. now apply lookup_app_l_Some.
Qed.

(** X3. When [ask] returns, it returns an array, never [None], and that
    array is the pending proposal; if no proposal was pending after the
    base-class call, the array is a new one, appended to the store and
    read-only, and exactly one draw has been made. *)
Theorem ask_returns_the_pending_array (s s' : St) (r : option addr) :
  Subclass.ask super_ask s = (s', Return r) ->
  exists p : addr,
    r = Some p /\ _proposed s' = Some p
    /\ forall (s1 : St) (b : B),
         super_ask s = (s1, Return b) -> _proposed s1 = None ->
         p = length (heap s1)
         /\ (exists x, heap s' = heap s1 ++ [mk_ndarray F x false])
         /\ mvn_draws s' = S (mvn_draws s1).
Proof.
  intros Hask. destruct (super_ask s) as [s1 [b|e]] eqn:Hsuper.
  - unfold Subclass.ask in Hask. unfold bind at 1 in Hask.
    rewrite Hsuper in Hask. exec_in Hask.
    + match goal with
      | E : _proposed _ = Some ?a |- _ => exists a; rewrite ?E
      end.
      split; [reflexivity|]. split; [reflexivity|].
      intros ? ? [= <- <-] Hp. congruence.
    + eexists. split; [reflexivity|]. split; [reflexivity|].
      intros ? ? [= <- <-] _. rewrite alloc_then_read_only.
      split; [reflexivity|]. split; [eexists; reflexivity | reflexivity].
  - unfold Subclass.ask in Hask. unfold bind at 1 in Hask.
    rewrite Hsuper in Hask. discriminate Hask.
Qed.

(** X4. [tell] hands the work to the base class and touches nothing but
    [log_a]: the final state is the one the base class left with, at
    most, [log_a] replaced.  If the base-class call raises, so does
    [tell], with [log_a] as it was; if it returns, [tell] returns the
    current point the base class left (whatever the base class itself
    returned), and [log_a] has moved by
    [gamma * (accepted - target_acceptance)] if [_adaptive] is set and not
    at all otherwise. *)
Theorem tell_touches_only_log_a (fx : F) (s s1 : St) (o : outcome C) :
  super_tell fx s = (s1, o) ->
  let s' := fst (Subclass.tell super_tell fx s) in
  s' = with_loga (_loga s') s1
  /\ match o with
     | Raise e => Subclass.tell super_tell fx s = (s1, Raise e)
     | Return _ =>
         snd (Subclass.tell super_tell fx s) = Return (_current s1)
         /\ _loga s' = if _adaptive s1
                       then fadd (_loga s1)
                                 (fmul (_gamma s1)
                                       (fsub (_accepted s1)
                                             (_target_acceptance s1)))
                       else _loga s1
     end.
Proof.
  intros Hsuper. destruct o as [c|e]; after_super Hsuper.
  all: repeat split; try reflexivity.
  all: match goal with E : _adaptive _ = _ |- _ => now rewrite E end.
Qed.

End Subclass_properties.

(** *** Functional tests *)

Section Functional_tests.
Import functionaltests.
Context {C A : Type}.
Variable run : C -> outcome (list (list A)).

Lemma slice_from_nonneg (n : Z) (l : list A) :
  (0 <= n)%Z -> slice_from n l = drop (Z.to_nat n) l.
Proof.
  intros Hn. unfold slice_from.
  destruct (n <? 0)%Z eqn:Hneg; [|reflexivity].
  apply Z.ltb_lt in Hneg. lia.
Qed.

(** X6. [run_and_throw_away_warmup] with a warm-up [n_warmup >= 0] keeps
    every chain and, of each chain, exactly the samples from position
    [n_warmup] on, in their order; a warm-up as long as the chain or
    longer gives an empty chain, not an error.  An exception of
    [controller.run()] is passed on. *)
Theorem run_and_throw_away_warmup_keeps_the_tail
    (controller : C) (n_warmup : Z) :
  (0 <= n_warmup)%Z ->
  match run controller with
  | Raise e => run_and_throw_away_warmup run controller n_warmup = Raise e
  | Return chains =>
      exists kept,
        run_and_throw_away_warmup run controller n_warmup = Return kept
        /\ length kept = length chains
        /\ forall (k : nat) (chain : list A),
             chains !! k = Some chain ->
             exists tail,
               kept !! k = Some tail
               /\ length tail = length chain - Z.to_nat n_warmup
               /\ forall i : nat,
                    tail !! i = chain !! (Z.to_nat n_warmup + i)
  end.
Proof.
  intros Hn. unfold run_and_throw_away_warmup.
  destruct (run controller) as [chains|e]; [|reflexivity].
  eexists. split; [reflexivity|]. split; [now rewrite length_map|].
  intros k chain Hk. exists (drop (Z.to_nat n_warmup) chain).
  rewrite list_lookup_fmap, Hk. cbn. rewrite slice_from_nonneg by exact Hn.
  split; [reflexivity|]. split; [apply length_drop|].
  intros i. apply lookup_drop.
Qed.

(** X7. A negative warm-up is not refused: with [n_warmup = -m] the
    function keeps, of each chain, only its last [m] samples (the whole
    chain if it has fewer). *)
Theorem negative_warmup_keeps_the_last_samples
    (controller : C) (m : nat) (chains : list (list A)) :
  0 < m -> run controller = Return chains ->
  exists kept,
    run_and_throw_away_warmup run controller (- Z.of_nat m) = Return kept
    /\ Forall2 (fun chain tail =>
                  tail = drop (length chain - m) chain
                  /\ length tail = Nat.min m (length chain))
               chains kept.
Proof.
  intros Hm Hrun. unfold run_and_throw_away_warmup. rewrite Hrun.
  eexists. split; [reflexivity|].
  apply Forall2_fmap_r, Forall_Forall2_diag, Forall_forall.
  intros chain _. unfold slice_from.
  destruct (- Z.of_nat m <? 0)%Z eqn:Hneg;
    [|apply Z.ltb_ge in Hneg; lia].
  split; [f_equal; lia | rewrite length_drop; lia].
Qed.

Lemma adjusted_warmup (w n : Z) :
  (0 <= w)%Z -> (0 <= n)%Z ->
  let w' := if (w >? n / 2)%Z then (n / 10)%Z else w in
  (0 <= w' <= n / 2)%Z
  /\ (2 * w <= n -> w' = w)%Z /\ (n < 2 * w -> w' = n / 10)%Z.
Proof.
  intros Hw Hn. cbn zeta.
  destruct (w >? n / 2)%Z eqn:Hgt.
  - apply Z.gtb_lt in Hgt. repeat split; intros;
      Z.div_mod_to_equations; lia.
  - rewrite Z.gtb_ltb in Hgt. apply Z.ltb_ge in Hgt.
    repeat split; intros; Z.div_mod_to_equations; lia.
Qed.

Lemma adjusting_tests_adjusted (n : Z) (t : option Z) (p : problem) :
  (0 <= n)%Z -> p ∈ adjusting_tests n t ->
  n_iterations p = n /\ exists w, warmup_adjusted_from w p.
Proof.
  intros Hn Hp. unfold adjusting_tests in Hp.
  repeat (apply elem_of_cons in Hp; destruct Hp as [-> | Hp]);
    [..|now apply elem_of_nil in Hp].
  all: split; [reflexivity|].
  - exists 500%Z. exact (adjusted_warmup 500 n ltac:(lia) Hn).
  - exists 2000%Z. exact (adjusted_warmup 2000 n ltac:(lia) Hn).
  - exists 5000%Z. exact (adjusted_warmup 5000 n ltac:(lia) Hn).
  - exists 500%Z. exact (adjusted_warmup 500 n ltac:(lia) Hn).
Qed.

(** X8. The tests of slice_stepout_mcmc.py and population_mcmc.py never
    throw away more than half of the iterations they ask for: for
    [n_iterations >= 0] the warm-up they pass on lies between 0 and
    [n_iterations // 2]; it is the warm-up written in the test (500, 2000,
    5000, 500) when [n_iterations] is at least twice that, and
    [n_iterations // 10] otherwise. *)
Theorem adjusted_warmup_is_at_most_half (n : Z) (t : option Z) :
  (0 <= n)%Z ->
  warmup_adjusted_from 500 (slice_stepout_two_dim_gaussian (Some n))
  /\ warmup_adjusted_from 2000 (slice_stepout_annulus (Some n))
  /\ warmup_adjusted_from 5000 (population_banana (Some n))
  /\ warmup_adjusted_from 500 (population_multimodal_gaussian (Some n) t).
Proof.
  intros Hn. split; [|split; [|split]].
  - exact (adjusted_warmup 500 n ltac:(lia) Hn).
  - exact (adjusted_warmup 2000 n ltac:(lia) Hn).
  - exact (adjusted_warmup 5000 n ltac:(lia) Hn).
  - exact (adjusted_warmup 500 n ltac:(lia) Hn).
Qed.

(** X9. For each of those tests called with [n_iterations >= 1]: if the
    run delivers [n_iterations] samples in every chain, the chains the
    problem keeps for its estimates are all there, none of them is empty,
    and each holds at least half of the iterations. *)
Theorem adjusted_warmup_keeps_at_least_half
    (controller : C) (n : Z) (t : option Z) (p : problem)
    (chains : list (list A)) :
  (1 <= n)%Z -> p ∈ adjusting_tests n t ->
  ran_for run controller p chains ->
  exists kept,
    chains_of run controller p = Return kept
    /\ length kept = length chains
    /\ Forall (fun tail => 1 <= length tail
                           /\ (n <= 2 * Z.of_nat (length tail))%Z) kept.
Proof.
  intros Hn Hp [Hrun Hlen].
  destruct (adjusting_tests_adjusted n t p ltac:(lia) Hp)
    as (Hiter & w & (Hlo & Hhi) & _).
  rewrite Hiter in *.
  unfold chains_of, run_and_throw_away_warmup. rewrite Hrun.
  eexists. split; [reflexivity|]. split; [now rewrite length_map|].
  apply Forall_fmap. eapply Forall_impl; [exact Hlen|].
  intros chain Hchain. cbn.
  rewrite slice_from_nonneg by exact Hlo. rewrite length_drop.
  cbn beta in Hchain. Z.div_mod_to_equations. lia.
Qed.

(** X10. Where the warm-up is not adjusted, a short run leaves nothing:
    [test_metropolis_on_two_dim_gaussian] always throws away 1000
    iterations, so with [0 <= n_iterations <= 1000] every chain it keeps
    is empty; the same holds for [emcee_hammer_mcmc.two_dim_gaussian]
    whenever [n_warmup >= n_iterations >= 0]. *)
Theorem fixed_warmup_can_leave_empty_chains
    (controller : C) (n w : Z) (p : problem) (chains : list (list A)) :
  (0 <= n <= w)%Z ->
  (p = test_metropolis_on_two_dim_gaussian (Some n) /\ w = 1000%Z)
  \/ p = emcee_hammer_two_dim_gaussian (Some n) (Some w) ->
  ran_for run controller p chains ->
  chains_of run controller p = Return (replicate (length chains) []).
Proof.
  intros Hn Hp [Hrun Hlen].
  assert (Hpw : n_iterations p = n /\ n_warmup p = w)
    by (destruct Hp as [[-> ->] | ->]; now split).
  destruct Hpw as [Hiter Hwarm]. rewrite Hiter in Hlen.
  unfold chains_of, run_and_throw_away_warmup. rewrite Hrun, Hwarm.
  f_equal. clear Hrun. induction Hlen as [|chain chains Hchain _ IH].
  - reflexivity.
  - cbn [length replicate map]. rewrite IH. f_equal.
    rewrite slice_from_nonneg by lia. apply drop_ge. lia.
Qed.

End Functional_tests.

(** *** [ParabolicError] *)

Section Parabola_properties.
Import ParabolicError.
Context {F G : Type} `{FloatOps F}.
Variable np_sum : list F -> F.

Abbreviation St := (state F G).

(** X11. [optimum] hands out a copy, not the centre itself: it returns a
    new, writeable array with the contents of the centre, and whatever
    the caller then writes into that array, the centre keeps its
    contents, so that a later [optimum] returns the original values
    again. *)
Theorem optimum_is_an_independent_copy
    (self : obj) (s : St) (d : list F) :
  deref (heap s) (_c self) = Some d ->
  exists s1 : St,
    optimum self s = (s1, Return (length (heap s)))
    /\ length (heap s) <> _c self
    /\ heap s1 !! length (heap s) = Some (mk_ndarray F d true)
    /\ forall (i : nat) (v : F),
         let s2 := fst (setitem (length (heap s)) i v s1) in
         deref (heap s2) (_c self) = Some d
         /\ (i < length d ->
             deref (heap s2) (length (heap s)) = Some (<[i := v]> d))
         /\ exists s3 a, optimum self s2 = (s3, Return a)
                         /\ deref (heap s3) a = Some d.
Proof.
  intros Hd.
  assert (Hlt : _c self < length (heap s)).
  { unfold deref in Hd. destruct (heap s !! _c self) as [o|] eqn:Ho;
      [exact (lookup_lt_Some _ _ _ Ho) | discriminate Hd]. }
  assert (Hkept : forall h' : list (ndarray F),
             deref (heap s ++ h') (_c self) = Some d).
  { intros h'. unfold deref in *. now rewrite lookup_app_l by exact Hlt. }
  assert (Hopt : forall s0 : St,
             deref (heap s0) (_c self) = Some d ->
             optimum self s0
             = (with_heap (heap s0 ++ [mk_ndarray F d true]) s0,
                Return (length (heap s0)))).
  { intros s0 Hd0. unfold optimum, bind, get. rewrite Hd0. reflexivity. }
  exists (with_heap (heap s ++ [mk_ndarray F d true]) s).
  split; [exact (Hopt s Hd)|]. split; [lia|]. split.
  { cbn. rewrite lookup_app_r by lia. now rewrite Nat.sub_diag. }
  intros i v s2.
  assert (Hs2 : heap s2
                = heap s ++ [mk_ndarray F (if length d <=? i then d
                                           else <[i := v]> d) true]).
  { subst s2. unfold setitem, bind, get, modify, raise. cbn.
    rewrite lookup_app_r by lia. rewrite Nat.sub_diag. cbn.
    destruct (length d <=? i) eqn:Hi; cbn; [reflexivity|].
    replace (length (heap s)) with (length (heap s) + 0) at 1 by lia.
    now rewrite insert_app_r. }
  assert (Hd2 : deref (heap s2) (_c self) = Some d)
    by (rewrite Hs2; apply Hkept).
  split; [exact Hd2|]. split.
  - intros Hi. rewrite Hs2. unfold deref.
    rewrite lookup_app_r by lia. rewrite Nat.sub_diag. cbn.
    destruct (length d <=? i) eqn:Hle; [apply Nat.leb_le in Hle; lia|].
    reflexivity.
  - exists (with_heap (heap s2 ++ [mk_ndarray F d true]) s2),
           (length (heap s2)).
    split; [exact (Hopt s2 Hd2)|].
    cbn. unfold deref. rewrite lookup_app_r by lia.
    now rewrite Nat.sub_diag.
Qed.

(** X12. At its optimum the error is zero, provided the arithmetic is
    exact there: if [c - c = 0] for every entry [c] of the centre (they
    are finite), [0 ** 2 = 0] and a sum of zeros is zero, then calling the
    error measure on the contents of the centre returns zero and changes
    nothing. *)
Theorem error_at_the_optimum_is_zero (self : obj) (s : St) (d : list F) :
  deref (heap s) (_c self) = Some d ->
  Forall (fun c => fsub c c = zero) d ->
  fpow zero (of_Q 2) = zero ->
  np_sum (replicate (length d) zero) = zero ->
  __call__ np_sum self d s = (s, Return zero).
Proof.
  intros Hd Hsub Hpow Hsum.
  unfold __call__, bind, get, ret, np_subtract. cbn in *. rewrite Hd. cbn.
  rewrite Nat.eqb_refl.
  assert (Hz : map (fun e : F => fpow e (of_Q 2)) (zip_with fsub d d)
               = replicate (length d) zero).
  { clear Hd Hsum. induction Hsub as [|c d Hc _ IH]; [reflexivity|].
    cbn. now rewrite Hc, Hpow, IH. }
  now rewrite Hz, Hsum.
Qed.

(** X13. The error measure does not check the length of its argument.  A
    sequence with a single entry [x0] is accepted whatever the dimension
    of the parabola and gives [sum_i (c_i - x0) ** 2]; an argument is
    refused (ValueError from the subtraction, nothing changed) only if
    its length differs from the dimension and neither of the two lengths
    is one. *)
Theorem error_of_wrong_length (self : obj) (s : St) (d x : list F) :
  deref (heap s) (_c self) = Some d ->
  (forall x0 : F,
     x = [x0] ->
     __call__ np_sum self x s
     = (s, Return (np_sum (map (fun c => fpow (fsub c x0) (of_Q 2)) d))))
  /\ (length x <> length d -> length x <> 1 -> length d <> 1 ->
      __call__ np_sum self x s = (s, Raise ValueError))
  /\ (length x = length d \/ length x = 1 \/ length d = 1 ->
      exists v, __call__ np_sum self x s = (s, Return v)).
Proof.
  intros Hd. unfold __call__, bind, get, ret, raise, np_subtract.
  cbn in *. rewrite Hd. cbn. repeat split.
  - intros x0 ->. destruct d as [|c [|c' d]]; cbn; try reflexivity.
    all: now rewrite map_map.
  - intros Hne Hx Hd1.
    destruct (length d =? length x) eqn:E;
      [apply Nat.eqb_eq in E; lia|].
    destruct x as [|x0 [|x1 x]]; destruct d as [|c [|c' d]];
      cbn in *; try lia; reflexivity.
  - intros Hok.
    destruct (length d =? length x) eqn:E; [eexists; reflexivity|].
    apply Nat.eqb_neq in E.
    destruct x as [|x0 [|x1 x]]; destruct d as [|c [|c' d]];
      cbn in *; try lia; eexists; reflexivity.
Qed.

(** X14. After construction, [n_parameters()] is the length of what
    [optimum()] returns: if [pints.vector] handed back an existing array,
    the optimum returned right after has [n_parameters()] entries, the
    entries of that array. *)
Theorem n_parameters_is_length_of_optimum
    (pints_vector : list F -> method F G addr)
    (c : option (list F)) (s s1 : St) (self : obj) (d : list F) :
  __init__ pints_vector c s = (s1, Return self) ->
  deref (heap s1) (_c self) = Some d ->
  exists s2 a,
    optimum self s1 = (s2, Return a)
    /\ deref (heap s2) a = Some d
    /\ length d = n_parameters self.
Proof.
  intros Hinit Hd. unfold __init__, bind, get, ret in Hinit.
  destruct (pints_vector (default [zero; zero] c) s) as [s' [a|e]] eqn:Hv;
    [|discriminate].
  injection Hinit as <- <-. cbn in *.
  eexists _, _. split; [|split].
  - unfold optimum, np_array, bind, get, modify, ret. cbn. rewrite Hd.
    reflexivity.
  - cbn. unfold deref. rewrite lookup_app_r by lia.
    now rewrite Nat.sub_diag.
  - unfold n_parameters. cbn. now rewrite Hd.
Qed.

End Parabola_properties.

(** ** The further properties on sample inputs *)

Import More_examples.

Lemma ask_returns_pending_proposal_untouched_witness :
  GlobalAdaptiveCovarianceMCMC.ask RemiACMCMC._initialise asked
  = (asked, Return tt)
  /\ _proposed asked = Some 0
  /\ Subclass.ask (GlobalAdaptiveCovarianceMCMC.ask RemiACMCMC._initialise)
                  asked
     = (asked, Return (Some 0)).
Proof.
  assert (Hsuper : GlobalAdaptiveCovarianceMCMC.ask RemiACMCMC._initialise
                     asked = (asked, Return tt)) by reflexivity.
  assert (Hp : _proposed asked = Some 0) by reflexivity.
  split; [exact Hsuper|]. split; [exact Hp|].
  exact (ask_returns_pending_proposal_untouched _ asked asked tt 0
           Hsuper Hp).
Defined.

Lemma ask_keeps_chain_and_adaptation_state_witness :
  GlobalAdaptiveCovarianceMCMC.ask RemiACMCMC._initialise told
  = (told, Return tt)
  /\ attributes_kept_but_proposed told asked_again
  /\ arrays_kept (heap told) (heap asked_again).
Proof.
  assert (Hsuper : GlobalAdaptiveCovarianceMCMC.ask RemiACMCMC._initialise
                     told = (told, Return tt)) by reflexivity.
  destruct (ask_keeps_chain_and_adaptation_state _ told told tt Hsuper)
    as (Hattrs & Harrays & _).
  split; [exact Hsuper|]. split; [exact Hattrs | exact Harrays].
Defined.

Lemma ask_returns_the_pending_array_witness :
  RemiACMCMC.ask told = (asked_again, Return (Some 1))
  /\ exists p, Some 1 = Some p /\ _proposed asked_again = Some p.
Proof.
  assert (Hask : Subclass.ask
                   (GlobalAdaptiveCovarianceMCMC.ask RemiACMCMC._initialise)
                   told = (asked_again, Return (Some 1))) by reflexivity.
  split; [exact Hask|].
  destruct (ask_returns_the_pending_array _ told asked_again (Some 1) Hask)
    as (p & Hr & Hp & _).
  exists p. now split.
Defined.

Lemma tell_touches_only_log_a_witness :
  let base := GlobalAdaptiveCovarianceMCMC.tell (Some 2%Q) adaptive_asked in
  base = (base.1, Return (Some 0))
  /\ adaptive_told = with_loga (_loga adaptive_told) base.1
  /\ snd (RemiACMCMC.tell (Some 2%Q) adaptive_asked)
     = Return (_current base.1).
Proof.
  intros base.
  assert (Hsuper : GlobalAdaptiveCovarianceMCMC.tell (Some 2%Q)
                     adaptive_asked = (base.1, Return (Some 0)))
    by reflexivity.
  destruct (tell_touches_only_log_a GlobalAdaptiveCovarianceMCMC.tell
              (Some 2%Q) adaptive_asked base.1 (Return (Some 0)) Hsuper)
    as (Hframe & Hret & _).
  split; [exact Hsuper|]. split; [exact Hframe | exact Hret].
Defined.

Lemma run_and_throw_away_warmup_keeps_the_tail_witness :
  (0 <= 1)%Z
  /\ exists kept,
       functionaltests.run_and_throw_away_warmup run4 tt 1 = Return kept
       /\ length kept = 2.
Proof.
  assert (Hn : (0 <= 1)%Z) by lia.
  pose proof (run_and_throw_away_warmup_keeps_the_tail run4 tt 1 Hn)
    as Htail.
  cbn in Htail. destruct Htail as (kept & Hkept & Hlen & _).
  split; [exact Hn|]. exists kept. split; [exact Hkept | exact Hlen].
Defined.

Lemma negative_warmup_keeps_the_last_samples_witness :
  0 < 1 /\ run4 tt = Return [[10; 11; 12; 13]; [20; 21; 22; 23]]
  /\ exists kept,
       functionaltests.run_and_throw_away_warmup run4 tt (-1) = Return kept
       /\ Forall2 (fun chain tail =>
                     tail = drop (length chain - 1) chain
                     /\ length tail = Nat.min 1 (length chain))
                  [[10; 11; 12; 13]; [20; 21; 22; 23]] kept.
Proof.
  assert (Hm : 0 < 1) by lia.
  split; [exact Hm|]. split; [reflexivity|].
  exact (negative_warmup_keeps_the_last_samples run4 tt 1 _ Hm eq_refl).
Defined.

Lemma adjusted_warmup_is_at_most_half_witness :
  (0 <= 4)%Z
  /\ functionaltests.warmup_adjusted_from 500
       (functionaltests.slice_stepout_two_dim_gaussian (Some 4%Z)).
Proof.
  assert (Hn : (0 <= 4)%Z) by lia.
  split; [exact Hn|].
  exact (proj1 (adjusted_warmup_is_at_most_half 4 None Hn)).
Defined.

Lemma adjusted_warmup_keeps_at_least_half_witness :
  let p := functionaltests.slice_stepout_two_dim_gaussian (Some 4%Z) in
  let chains := [[10; 11; 12; 13]; [20; 21; 22; 23]] in
  (1 <= 4)%Z /\ p ∈ functionaltests.adjusting_tests 4 None
  /\ functionaltests.ran_for run4 tt p chains
  /\ exists kept,
       functionaltests.chains_of run4 tt p = Return kept
       /\ length kept = 2.
Proof.
  intros p chains.
  assert (Hn : (1 <= 4)%Z) by lia.
  assert (Hp : p ∈ functionaltests.adjusting_tests 4 None)
    by apply list_elem_of_here.
  assert (Hran : functionaltests.ran_for run4 tt p chains)
    by (split; [reflexivity | repeat constructor]).
  destruct (adjusted_warmup_keeps_at_least_half run4 tt 4 None p chains
              Hn Hp Hran) as (kept & Hkept & Hlen & _).
  split; [exact Hn|]. split; [exact Hp|]. split; [exact Hran|].
  exists kept. split; [exact Hkept | exact Hlen].
Defined.

Lemma fixed_warmup_can_leave_empty_chains_witness :
  let p := functionaltests.test_metropolis_on_two_dim_gaussian (Some 3%Z) in
  let chains := [[10; 11; 12]; [20; 21; 22]] in
  (0 <= 3 <= 1000)%Z
  /\ functionaltests.ran_for run3 tt p chains
  /\ functionaltests.chains_of run3 tt p = Return [[]; []].
Proof.
  intros p chains.
  assert (Hn : (0 <= 3 <= 1000)%Z) by lia.
  assert (Hran : functionaltests.ran_for run3 tt p chains)
    by (split; [reflexivity | repeat constructor]).
  split; [exact Hn|]. split; [exact Hran|].
  exact (fixed_warmup_can_leave_empty_chains run3 tt 3 1000 p chains Hn
           (or_introl (conj eq_refl eq_refl)) Hran).
Defined.

Lemma optimum_is_an_independent_copy_witness :
  deref (heap fresh) (ParabolicError._c parabola)
  = Some [Some 3%Q; Some 4%Q]
  /\ exists s1, ParabolicError.optimum parabola fresh = (s1, Return 1)
                /\ heap s1 !! 1
                   = Some (mk_ndarray num [Some 3%Q; Some 4%Q] true).
Proof.
  assert (Hd : deref (heap fresh) (ParabolicError._c parabola)
               = Some [Some 3%Q; Some 4%Q]) by reflexivity.
  destruct (optimum_is_an_independent_copy parabola fresh _ Hd)
    as (s1 & Hopt & _ & Hnew & _).
  split; [exact Hd|]. exists s1. split; [exact Hopt | exact Hnew].
Defined.

Lemma error_at_the_optimum_is_zero_witness :
  Forall (fun c : num => fsub c c = zero) [Some 3%Q; Some 4%Q]
  /\ fpow zero (of_Q 2) = (zero : num)
  /\ sum (replicate 2 zero) = zero
  /\ ParabolicError.__call__ sum parabola [Some 3%Q; Some 4%Q] fresh
     = (fresh, Return zero).
Proof.
  assert (Hsub : Forall (fun c : num => fsub c c = zero)
                        [Some 3%Q; Some 4%Q]) by (repeat constructor).
  assert (Hpow : fpow zero (of_Q 2) = (zero : num)) by reflexivity.
  assert (Hsum : sum (replicate 2 zero) = zero) by reflexivity.
  split; [exact Hsub|]. split; [exact Hpow|]. split; [exact Hsum|].
  exact (error_at_the_optimum_is_zero sum parabola fresh
           [Some 3%Q; Some 4%Q] eq_refl Hsub Hpow Hsum).
Defined.

Lemma error_of_wrong_length_witness :
  deref (heap fresh) (ParabolicError._c parabola)
  = Some [Some 3%Q; Some 4%Q]
  /\ ParabolicError.__call__ sum parabola [Some 1%Q] fresh
     = (fresh, Return (Some 13%Q))
  /\ ParabolicError.__call__ sum parabola
       [Some 1%Q; Some 1%Q; Some 1%Q] fresh
     = (fresh, Raise ValueError).
Proof.
  assert (Hd : deref (heap fresh) (ParabolicError._c parabola)
               = Some [Some 3%Q; Some 4%Q]) by reflexivity.
  destruct (error_of_wrong_length sum parabola fresh _
              [Some 1%Q] Hd) as (Hone & _ & _).
  destruct (error_of_wrong_length sum parabola fresh _
              [Some 1%Q; Some 1%Q; Some 1%Q] Hd) as (_ & Hbad & _).
  split; [exact Hd|]. split.
  - exact (Hone (Some 1%Q) eq_refl).
  - apply Hbad; cbn; lia.
Defined.

Lemma n_parameters_is_length_of_optimum_witness :
  let made := ParabolicError.__init__ vector_copy
                (Some [Some 1%Q; Some 2%Q; Some 3%Q]) fresh in
  made = (made.1, Return (ParabolicError.mk_obj 1 3))
  /\ exists s2 a,
       ParabolicError.optimum (ParabolicError.mk_obj 1 3) made.1
       = (s2, Return a)
       /\ deref (heap s2) a = Some [Some 1%Q; Some 2%Q; Some 3%Q].
Proof.
  intros made.
  assert (Hinit : ParabolicError.__init__ vector_copy
                    (Some [Some 1%Q; Some 2%Q; Some 3%Q]) fresh
                  = (made.1, Return (ParabolicError.mk_obj 1 3)))
    by reflexivity.
  destruct (n_parameters_is_length_of_optimum vector_copy _ fresh made.1
              (ParabolicError.mk_obj 1 3)
              [Some 1%Q; Some 2%Q; Some 3%Q] Hinit eq_refl)
    as (s2 & a & Hopt & Hd & _).
  split; [exact Hinit|]. exists s2, a. split; [exact Hopt | exact Hd].
Defined.
